(** * crawl_cli: a shallow embedding of [scripts/crawl_cli.py]

    The script crawls documentation sites with an external crawling library
    and saves the pages as local markdown files.  Everything the script itself
    does is embedded here: markdown resolution ([get_markdown]), filename
    sanitization ([sanitize_filename]), the output directory
    ([get_output_dir]), the two crawl commands ([crawl_page], [crawl_site])
    and the dispatch and argument clamping of [main].

    What the script calls but does not define is a parameter: the crawling
    library is an oracle ([Crawler]), and so are the URL parser
    [urllib.parse.urlparse] and the non-ASCII part of the regular expression
    class [\w] ([Runtime]).  A reference parser that follows CPython's is
    given for the sample runs.

    Python [str] values are sequences of Unicode code points; [int] values
    are unbounded ([Z], or [nat] for lengths, counters and loop indices).
    Effects are threaded through a state and exception monad over [World]:
    files written, directories created, the two output streams and the calls
    of the crawler.  [write_text] and [mkdir] are taken to succeed; [OSError]
    is not modelled. *)

From Stdlib Require Import String Ascii DecimalString DecimalNat.
From Stdlib Require Import NArith ZArith Lia Bool List.
From Stdlib Require Import Sorting.Sorted Sorting.Permutation.
Import ListNotations.
Local Open Scope list_scope.

Set Implicit Arguments.

(* ================================================================= *)
(** ** Python strings *)

Module PyStr.

(** A character is a Unicode code point. *)
Definition char := N.
Definition pystr := list char.

(** ASCII literals of the script. *)
Definition lit (s : string) : pystr :=
  map N_of_ascii (list_ascii_of_string s).

Definition char_eqb (a b : char) : bool := N.eqb a b.

Definition SLASH : char := 47%N.
Definition UNDERSCORE : char := 95%N.
Definition HYPHEN : char := 45%N.
Definition DOT : char := 46%N.
Definition COLON : char := 58%N.
Definition NEWLINE : char := 10%N.
Definition COMMA : char := 44%N.
Definition ZERO : char := 48%N.
Definition EM_DASH : char := 8212%N.

Definition in_range (lo hi c : N) : bool := (N.leb lo c && N.leb c hi)%bool.

(** [str.isspace] on one character: the code points Python treats as
    whitespace, which is what [str.strip()] without argument removes. *)
Definition is_space (c : char) : bool :=
  (in_range 9 13 c || in_range 28 32 c || N.eqb c 133 || N.eqb c 160
   || N.eqb c 5760 || in_range 8192 8202 c || N.eqb c 8232 || N.eqb c 8233
   || N.eqb c 8239 || N.eqb c 8287 || N.eqb c 12288)%bool.

Definition is_ascii_digit (c : char) : bool := in_range 48 57 c.
Definition is_ascii_alpha (c : char) : bool :=
  (in_range 65 90 c || in_range 97 122 c)%bool.
Definition is_ascii_alnum (c : char) : bool :=
  (is_ascii_digit c || is_ascii_alpha c)%bool.

Fixpoint lstrip (p : char -> bool) (s : pystr) : pystr :=
  match s with
  | [] => []
  | c :: s' => if p c then lstrip p s' else s
  end.

Definition rstrip (p : char -> bool) (s : pystr) : pystr :=
  rev (lstrip p (rev s)).

(** [s.strip(chars)], with [p] the membership test of [chars]. *)
Definition strip (p : char -> bool) (s : pystr) : pystr :=
  rstrip p (lstrip p s).

(** [s.replace(a, b)] for one-character [a] and [b]. *)
Definition replace_char (a b : char) (s : pystr) : pystr :=
  map (fun c => if char_eqb c a then b else c) s.

(** [s[:n]]. *)
Definition slice_to (n : nat) (s : pystr) : pystr := firstn n s.

(** Truth value of a [str]: non-empty. *)
Definition nonempty (s : pystr) : bool :=
  match s with [] => false | _ :: _ => true end.

(** [sep.join(lines)]. *)
Fixpoint join (sep : pystr) (ls : list pystr) : pystr :=
  match ls with
  | [] => []
  | [l] => l
  | l :: ls' => l ++ sep ++ join sep ls'
  end.

(** [a < b] and [a <= b] on [str]: lexicographic on code points. *)
Fixpoint str_ltb (a b : pystr) : bool :=
  match a, b with
  | _, [] => false
  | [], _ :: _ => true
  | x :: a', y :: b' =>
      if N.ltb x y then true
      else if N.eqb x y then str_ltb a' b' else false
  end.

Definition str_leb (a b : pystr) : bool := negb (str_ltb b a).

(** [str(n)] for a non-negative [int]. *)
Definition str_of_nat (n : nat) : pystr :=
  lit (NilZero.string_of_uint (Nat.to_uint n)).

(** [str(z)] for an [int]. *)
Definition str_of_Z (z : Z) : pystr :=
  lit (NilZero.string_of_int (Z.to_int z)).

(** [f"{n:03d}"]: decimal, left-padded with zeros to width 3. *)
Definition fmt_03d (n : nat) : pystr :=
  let ds := str_of_nat n in
  repeat ZERO (3 - length ds) ++ ds.

(** Thousands separators over the reversed digits; [k] digits are still
    to come in the current group. *)
Fixpoint commas_rev (k : nat) (ds : pystr) : pystr :=
  match ds with
  | [] => []
  | d :: ds' =>
      match k with
      | O => COMMA :: d :: commas_rev 2 ds'
      | S k' => d :: commas_rev k' ds'
      end
  end.

(** [f"{n:,}"] for a non-negative [int]. *)
Definition fmt_comma (n : nat) : pystr :=
  rev (commas_rev 3 (rev (str_of_nat n))).

(** [s.find(c)] together with the two slices around the hit:
    [Some (s[:i], s[i+1:])], or [None] when [c] does not occur. *)
Fixpoint break_at (c : char) (s : pystr) : option (pystr * pystr) :=
  match s with
  | [] => None
  | x :: s' =>
      if char_eqb x c then Some ([], s')
      else match break_at c s' with
           | Some (l, r) => Some (x :: l, r)
           | None => None
           end
  end.

Definition contains (c : char) (s : pystr) : bool :=
  existsb (char_eqb c) s.

(** [s.split(c)] for a one-character separator. *)
Fixpoint split_on (c : char) (s : pystr) : list pystr :=
  match s with
  | [] => [[]]
  | x :: s' =>
      match split_on c s' with
      | [] => [[]]
      | w :: ws => if char_eqb x c then [] :: w :: ws else (x :: w) :: ws
      end
  end.

Definition str_eqb (a b : pystr) : bool :=
  if list_eq_dec N.eq_dec a b then true else false.

End PyStr.
Import PyStr.


(* ================================================================= *)
(** ** [pathlib.Path] on a POSIX system *)

Module Pathlib.

(** A path is its list of components, and whether it starts at the
    filesystem root.  As [pathlib] does, parsing drops empty and ["."]
    components and keeps [".."]. *)
Record Path := mkPath { absolute : bool; parts : list pystr }.

Definition keep_part (s : pystr) : bool :=
  (nonempty s && negb (str_eqb s (lit ".")))%bool.

(** [Path(s)]. *)
Definition of_str (s : pystr) : Path :=
  {| absolute := match s with c :: _ => char_eqb c SLASH | [] => false end;
     parts := filter keep_part (split_on SLASH s) |}.

(** [p / s]: an absolute [s] replaces [p]. *)
Definition joinpath (p : Path) (s : pystr) : Path :=
  let q := of_str s in
  if absolute q then q
  else {| absolute := absolute p; parts := parts p ++ parts q |}.

(** [str(p)]. *)
Definition to_str (p : Path) : pystr :=
  match absolute p, parts p with
  | false, [] => lit "."
  | false, ps => join [SLASH] ps
  | true, ps => SLASH :: join [SLASH] ps
  end.

Definition path_eqb (p q : Path) : bool :=
  (Bool.eqb (absolute p) (absolute q)
   && (if list_eq_dec (list_eq_dec N.eq_dec) (parts p) (parts q)
       then true else false))%bool.

(** Walking the components [rel] downwards from a directory, [depth]
    levels below it: [None] as soon as a [".."] climbs above the
    directory the walk started from. *)
Fixpoint descend (depth : nat) (rel : list pystr) : option nat :=
  match rel with
  | [] => Some depth
  | c :: rel' =>
      if str_eqb c (lit "..") then
        match depth with
        | O => None
        | S d => descend d rel'
        end
      else descend (S depth) rel'
  end.

Fixpoint strip_prefix (pre l : list pystr) : option (list pystr) :=
  match pre, l with
  | [], _ => Some l
  | _ :: _, [] => None
  | a :: pre', b :: l' => if str_eqb a b then strip_prefix pre' l' else None
  end.

(** [p] names a location under the directory [root]: it extends [root],
    and the components it adds never climb above [root]. *)
Definition inside (root p : Path) : bool :=
  (Bool.eqb (absolute root) (absolute p)
   && match strip_prefix (parts root) (parts p) with
      | Some rel => match descend 0 rel with Some _ => true | None => false end
      | None => false
      end)%bool.

End Pathlib.
Import Pathlib.

(* ================================================================= *)
(** ** [urllib.parse] *)

Module Urllib.

(** The six components [urlparse] returns; the script reads [netloc] and
    [path]. *)
Record ParseResult := mkParseResult {
  scheme : pystr;
  netloc : pystr;
  path : pystr;
  params : pystr;
  query : pystr;
  fragment : pystr
}.

(** Characters [urlparse] gives a meaning to or removes: the C0 controls
    and the space, and [#], [/], [:], [;], [?]. *)
Definition is_delim (c : char) : bool :=
  (N.leb c 32 || N.eqb c 35 || N.eqb c 47 || N.eqb c 58 || N.eqb c 59
   || N.eqb c 63)%bool.

(** *** A reference parser

    The standard library's parser is not part of the script; the script's
    functions below take the parser as a parameter.  [urlparse_py] follows
    CPython's [urlsplit]/[urlparse] for [str] arguments (leading C0 and
    space stripped, tab and newlines removed, scheme, [//netloc], fragment,
    query, then [;params] of the last path segment); the [ValueError]
    checks on bracketed hosts and the NFKC check of the host are left out.
    It instantiates the parameter in the examples. *)

Definition is_scheme_char (c : char) : bool :=
  (is_ascii_alnum c || N.eqb c 43 || N.eqb c 45 || N.eqb c 46)%bool.

Definition lower (c : char) : char :=
  if in_range 65 90 c then (c + 32)%N else c.

Definition unsafe_byte (c : char) : bool :=
  (N.eqb c 9 || N.eqb c 13 || N.eqb c 10)%bool.

Definition split_scheme (u : pystr) : pystr * pystr :=
  match break_at COLON u with
  | Some (c :: pre, rest) =>
      if (is_ascii_alpha c && forallb is_scheme_char (c :: pre))%bool
      then (map lower (c :: pre), rest)
      else ([], u)
  | _ => ([], u)
  end.

(** [_splitnetloc(url, 2)], on the text after the two slashes. *)
Fixpoint splitnetloc (u : pystr) : pystr * pystr :=
  match u with
  | [] => ([], [])
  | c :: u' =>
      if (N.eqb c 47 || N.eqb c 63 || N.eqb c 35)%bool then ([], u)
      else let '(n, rest) := splitnetloc u' in (c :: n, rest)
  end.

Definition split_first (c : char) (u : pystr) : pystr * pystr :=
  match break_at c u with
  | Some (l, r) => (l, r)
  | None => (u, [])
  end.

Definition uses_params : list pystr :=
  map lit ["ftp"; "hdl"; "prospero"; "http"; "imap"; "https"; "shttp";
           "rtsp"; "rtspu"; "sip"; "sips"; "mms"; "sftp"; "tel"]%string
  ++ [[]].

(** [_splitparams]: the parameters follow the first [;] of the last
    path segment. *)
Definition splitparams (u : pystr) : pystr * pystr :=
  match rev (split_on SLASH u) with
  | [] => (u, [])
  | last :: before =>
      match break_at 59%N last with
      | None => (u, [])
      | Some (l, r) => (join [SLASH] (rev (l :: before)), r)
      end
  end.

Definition urlparse_py (url : pystr) : ParseResult :=
  let u := lstrip (fun c => N.leb c 32) url in
  let u := filter (fun c => negb (unsafe_byte c)) u in
  let '(sch, u) := split_scheme u in
  let '(loc, u) :=
    match u with
    | 47%N :: 47%N :: u' => splitnetloc u'
    | _ => ([], u)
    end in
  let '(u, frag) := split_first 35%N u in
  let '(u, q) := split_first 63%N u in
  let '(u, prm) :=
    if (existsb (str_eqb sch) uses_params && contains 59%N u)%bool
    then splitparams u else (u, []) in
  mkParseResult sch loc u prm q frag.

End Urllib.
Import Urllib.

(* ================================================================= *)
(** ** Python values the script handles *)

(** Truth value of an object, as [or] and [not] test it. *)
Class Truthy (A : Type) := truth : A -> bool.
#[export] Instance Truthy_str : Truthy pystr := nonempty.
#[export] Instance Truthy_int : Truthy Z := fun z => negb (Z.eqb z 0).

(** An attribute of a duck-typed object: missing, [None], or a value. *)
Inductive attr (A : Type) : Type :=
| Absent
| IsNone
| Val (a : A).
Arguments Absent {A}.
Arguments IsNone {A}.
Arguments Val {A} a.

(** A value that is [None] ([None]) or an [A] ([Some a]). *)
Definition optional (A : Type) := option A.

(** [getattr(obj, name, default)]. *)
Definition getattr {A} (a : attr A) (default : A) : optional A :=
  match a with
  | Absent => Some default
  | IsNone => None
  | Val v => Some v
  end.

Definition truthy {A} `{Truthy A} (v : optional A) : bool :=
  match v with
  | None => false
  | Some a => truth a
  end.

(** [a or b]: the first operand when it is true, else the second. *)
Definition py_or {A} `{Truthy A} (a b : optional A) : optional A :=
  if truthy a then a else b.

(** [a or d] with [d] a value that is not [None]: the result is an [A]. *)
Definition or_default {A} `{Truthy A} (a : optional A) (d : A) : A :=
  match a with
  | Some v => if truth v then v else d
  | None => d
  end.

(** How an f-string renders a [str] or [None]. *)
Definition fmt (v : optional pystr) : pystr :=
  match v with
  | Some s => s
  | None => lit "None"
  end.

(** The [markdown] field of a crawl result: [None], a [str], or the
    library's generation result with its [raw_markdown] and [fit_markdown]
    attributes (each a [str], [None], or missing). *)
Inductive markdown_value : Type :=
| MdNone
| MdStr (s : pystr)
| MdResult (raw_markdown fit_markdown : attr pystr).

Record CrawlResult := mkCrawlResult {
  success : bool;
  error_message : optional pystr;
  markdown : markdown_value;
  url : pystr;
  title : attr pystr;
  depth : attr Z
}.

(** What [crawler.arun] returns under a deep-crawl strategy: a list of
    results, or a single one. *)
Inductive arun_value : Type :=
| One (r : CrawlResult)
| Many (rs : list CrawlResult).

(** An entry of [pages], a dictionary with the five keys below. *)
Module Page.
Record t := mk {
  file : pystr;
  url : pystr;
  title : pystr;
  depth : Z;
  size : nat
}.
End Page.

(* ================================================================= *)
(** ** Effects: the file system, the two output streams, the crawler *)

Inductive request : Type :=
| Fetch (url : pystr)
| DeepCrawl (url : pystr) (max_depth max_pages : Z).

(** The world the script acts on, as logs in the order of the effects.
    Writes and directory creations are taken to succeed. *)
Record World := mkWorld {
  files : list (Path * pystr);     (* [write_text]: path, content *)
  dirs : list Path;                (* [mkdir(parents=True, exist_ok=True)] *)
  stdout : list pystr;             (* [print] *)
  stderr : list pystr;             (* [print(..., file=sys.stderr)] *)
  requests : list request          (* calls of [crawler.arun] *)
}.

Definition empty_world : World := mkWorld [] [] [] [] [].

Inductive exn : Type :=
| SystemExit (code : Z)
| AttributeError
| TypeError.

Inductive result (A : Type) : Type :=
| Ok (a : A)
| Raise (e : exn).
Arguments Ok {A} a.
Arguments Raise {A} e.

Definition Py (A : Type) : Type := World -> result A * World.

Definition ret {A} (a : A) : Py A := fun w => (Ok a, w).

Definition bind {A B} (m : Py A) (k : A -> Py B) : Py B :=
  fun w =>
    match m w with
    | (Ok a, w') => k a w'
    | (Raise e, w') => (Raise e, w')
    end.

Definition raise {A} (e : exn) : Py A := fun w => (Raise e, w).

Notation "x <- m ;; k" := (bind m (fun x => k))
  (at level 61, m at next level, right associativity).
Notation "m ;; k" := (bind m (fun _ => k))
  (at level 61, right associativity).

Definition print (line : pystr) : Py unit :=
  fun w => (Ok tt, mkWorld (files w) (dirs w) (stdout w ++ [line]) (stderr w) (requests w)).

Definition eprint (line : pystr) : Py unit :=
  fun w => (Ok tt, mkWorld (files w) (dirs w) (stdout w) (stderr w ++ [line]) (requests w)).

Definition write_text (p : Path) (content : pystr) : Py unit :=
  fun w => (Ok tt, mkWorld (files w ++ [(p, content)]) (dirs w) (stdout w) (stderr w) (requests w)).

Definition mkdir (p : Path) : Py unit :=
  fun w => (Ok tt, mkWorld (files w) (dirs w ++ [p]) (stdout w) (stderr w) (requests w)).

Definition sys_exit {A} (code : Z) : Py A := raise (SystemExit code).

(** [content.strip()] and [len(content)] need a [str]. *)
Definition expect_str (e : exn) (v : optional pystr) : Py pystr :=
  match v with
  | Some s => ret s
  | None => raise e
  end.

(* ================================================================= *)
(** ** The script *)

(** The part of Python's runtime the script calls and that is a table
    rather than an algorithm: [str.isalnum] on the code points from 128 up,
    which decides the class [\w] outside ASCII, and
    [urllib.parse.urlparse]. *)
Class Runtime := {
  unicode_alnum : char -> bool;
  urlparse : pystr -> ParseResult
}.

(** The crawling library: what [crawler.arun] returns for a URL under the
    plain run configuration, and under the breadth-first deep-crawl strategy
    with the given [max_depth] and [max_pages]. *)
Class Crawler := {
  arun_page : pystr -> CrawlResult;
  arun_deep : pystr -> Z -> Z -> arun_value
}.

Section CrawlCli.

Context {RT : Runtime} {CR : Crawler}.

Definition arun (u : pystr) : Py CrawlResult :=
  fun w => (Ok (arun_page u),
            mkWorld (files w) (dirs w) (stdout w) (stderr w)
                    (requests w ++ [Fetch u])).

Definition arun_strategy (u : pystr) (max_depth max_pages : Z) : Py arun_value :=
  fun w => (Ok (arun_deep u max_depth max_pages),
            mkWorld (files w) (dirs w) (stdout w) (stderr w)
                    (requests w ++ [DeepCrawl u max_depth max_pages])).

(** The class [\w] of a [str] pattern: alphanumeric or underscore. *)
Definition is_word (c : char) : bool :=
  if N.ltb c 128 then (is_ascii_alnum c || char_eqb c UNDERSCORE)%bool
  else unicode_alnum c.

(** The class [[\w\-.]] that [sanitize_filename] keeps. *)
Definition is_safe (c : char) : bool :=
  (is_word c || char_eqb c HYPHEN || char_eqb c DOT)%bool.

(** [re.sub(r"[^\w\-.]", "_", s)]. *)
Definition re_sub_unsafe (s : pystr) : pystr :=
  map (fun c => if is_safe c then c else UNDERSCORE) s.

Definition get_markdown (r : CrawlResult) : optional pystr :=
  match markdown r with
  | MdNone => Some []
  | MdStr md => Some md
  | MdResult raw fit =>
      py_or (py_or (getattr raw []) (getattr fit [])) (Some [])
  end.

Definition sanitize_filename (u : pystr) : pystr :=
  let parsed := urlparse u in
  let p := or_default
             (Some (replace_char SLASH UNDERSCORE
                      (strip (char_eqb SLASH) (path parsed))))
             (lit "index") in
  let p := re_sub_unsafe p in
  slice_to 100 p.

Definition get_output_dir (u base_dir : pystr) : Path :=
  let parsed := urlparse u in
  let domain := replace_char COLON UNDERSCORE (netloc parsed) in
  joinpath (of_str base_dir) domain.

(** The text of a single-page file and of a site page file. *)
Definition page_text (title u : pystr) (content : optional pystr) : pystr :=
  lit "# " ++ title ++ [NEWLINE; NEWLINE] ++ lit "URL: " ++ u
  ++ [NEWLINE; NEWLINE] ++ fmt content.

Definition site_page_text (title u : pystr) (d : Z) (content : pystr) : pystr :=
  lit "# " ++ title ++ [NEWLINE; NEWLINE] ++ lit "URL: " ++ u
  ++ [NEWLINE] ++ lit "Depth: " ++ str_of_Z d
  ++ [NEWLINE; NEWLINE] ++ content.

Definition crawl_page (u output_dir : pystr) : Py unit :=
  let out_dir := get_output_dir u output_dir in
  mkdir out_dir ;;
  print (lit "Crawling " ++ u ++ lit " ...") ;;
  result <- arun u ;;
  if negb (success result) then
    eprint (lit "Error: " ++ fmt (error_message result)) ;;
    sys_exit 1
  else
    let content := get_markdown result in
    let filename := sanitize_filename u ++ lit ".md" in
    let filepath := joinpath out_dir filename in
    let title := or_default (getattr (title result) []) u in
    write_text filepath (page_text title u content) ;;
    print (lit "Saved: " ++ to_str filepath) ;;
    text <- expect_str TypeError content ;;
    print (lit "Size: " ++ fmt_comma (length text) ++ lit " chars").

(** The locals [pages] and [errors] of [crawl_site]. *)
Record LoopState := mkLoop {
  pages : list Page.t;
  errors : nat
}.

Definition site_filename (i : nat) (r : CrawlResult) : pystr :=
  fmt_03d i ++ [UNDERSCORE] ++ sanitize_filename (url r) ++ lit ".md".

(** One iteration of [for i, r in enumerate(results)]. *)
Definition site_step (pages_dir : Path) (i : nat) (r : CrawlResult)
    (st : LoopState) : Py LoopState :=
  if negb (success r) then
    ret (mkLoop (pages st) (errors st + 1))
  else
    content <- expect_str AttributeError (get_markdown r) ;;
    if negb (truth (strip is_space content)) then
      ret st
    else
      let title := or_default (getattr (title r) []) (url r) in
      let d := or_default (getattr (depth r) 0%Z) 0%Z in
      let filename := site_filename i r in
      let filepath := joinpath pages_dir filename in
      write_text filepath (site_page_text title (url r) d content) ;;
      ret (mkLoop
             (pages st ++ [Page.mk (to_str filepath) (url r) title d
                                   (length content)])
             (errors st)).

Fixpoint site_loop (pages_dir : Path) (i : nat) (rs : list CrawlResult)
    (st : LoopState) : Py LoopState :=
  match rs with
  | [] => ret st
  | r :: rs' =>
      st' <- site_step pages_dir i r st ;;
      site_loop pages_dir (S i) rs' st'
  end.

(** The key [(p["depth"], p["url"])] and its tuple order. *)
Definition sort_key (p : Page.t) : Z * pystr := (Page.depth p, Page.url p).

Definition key_ltb (a b : Z * pystr) : bool :=
  (Z.ltb (fst a) (fst b)
   || (Z.eqb (fst a) (fst b) && str_ltb (snd a) (snd b)))%bool.

(** [pages.sort(key=...)]: a stable sort, here by insertion; an element
    goes before the elements that followed it with a key not smaller. *)
Fixpoint insert_page (p : Page.t) (l : list Page.t) : list Page.t :=
  match l with
  | [] => [p]
  | q :: l' =>
      if key_ltb (sort_key q) (sort_key p) then q :: insert_page p l'
      else p :: l
  end.

Definition sort_pages (l : list Page.t) : list Page.t :=
  fold_right insert_page [] l.

Definition index_entry (p : Page.t) : list pystr :=
  [ lit "- [" ++ Page.title p ++ lit "](" ++ Page.file p ++ lit ") "
      ++ [EM_DASH] ++ lit " depth " ++ str_of_Z (Page.depth p) ++ lit ", "
      ++ fmt_comma (Page.size p) ++ lit " chars";
    lit "  " ++ Page.url p ].

Definition summary_line (n_pages n_errors : nat) : pystr :=
  lit "Pages: " ++ str_of_nat n_pages ++ lit " crawled, "
  ++ str_of_nat n_errors ++ lit " errors".

Definition index_text (u : pystr) (max_depth : Z) (ps : list Page.t)
    (n_errors : nat) : pystr :=
  let lines :=
    [ lit "# Crawl Index: " ++ u ++ [NEWLINE];
      summary_line (length ps) n_errors;
      lit "Depth: " ++ str_of_Z max_depth ++ [NEWLINE];
      lit "## Pages" ++ [NEWLINE] ]
    ++ flat_map index_entry ps in
  join [NEWLINE] lines ++ [NEWLINE].

Definition as_list (v : arun_value) : list CrawlResult :=
  match v with
  | One r => [r]
  | Many rs => rs
  end.

(** What [crawl_site] holds in its locals when it returns (the Python
    function itself returns [None]). *)
Record SiteSummary := mkSummary {
  site_pages : list Page.t;
  site_errors : nat;
  total_size : nat;
  index_path : Path;
  pages_dir : Path
}.

Definition crawl_site (u : pystr) (max_depth max_pages : Z)
    (output_dir : pystr) : Py SiteSummary :=
  let out_dir := get_output_dir u output_dir in
  let pages_dir := joinpath out_dir (lit "pages") in
  mkdir pages_dir ;;
  print (lit "Deep crawling " ++ u ++ lit " (depth=" ++ str_of_Z max_depth
         ++ lit ", max_pages=" ++ str_of_Z max_pages ++ lit ") ...") ;;
  results <- arun_strategy u max_depth max_pages ;;
  let results := as_list results in
  st <- site_loop pages_dir 0 results (mkLoop [] 0) ;;
  let ps := sort_pages (pages st) in
  let index_path := joinpath out_dir (lit "index.md") in
  write_text index_path (index_text u max_depth ps (errors st)) ;;
  let total := list_sum (map Page.size ps) in
  print ([NEWLINE] ++ lit "Crawl complete!") ;;
  print (summary_line (length ps) (errors st)) ;;
  print (lit "Index: " ++ to_str index_path) ;;
  print (lit "Pages dir: " ++ to_str pages_dir) ;;
  print (lit "Total content: " ++ fmt_comma total ++ lit " chars") ;;
  ret (mkSummary ps (errors st) total index_path pages_dir).

(** The parsed command line. *)
Inductive command : Type :=
| PageCmd (u : pystr)
| SiteCmd (u : pystr) (arg_depth arg_max_pages : Z).

Definition main (output_dir : pystr) (cmd : command) : Py unit :=
  match cmd with
  | PageCmd u => crawl_page u output_dir
  | SiteCmd u arg_depth arg_max_pages =>
      let d := Z.max 1 (Z.min 10 arg_depth) in
      let max_pages := Z.max 1 (Z.min 500 arg_max_pages) in
      crawl_site u d max_pages output_dir ;;
      ret tt
  end.

(** The exit status of the process for a run of [main]: 0 on return, the
    code of [sys.exit], 1 for an uncaught exception. *)
Definition exit_status {A} (r : result A) : Z :=
  match r with
  | Ok _ => 0
  | Raise (SystemExit c) => c
  | Raise _ => 1
  end.

End CrawlCli.

(* ================================================================= *)
(** ** Closed forms used in the statements *)

(** The reference runtime: ASCII-only [\w] unless a table is given, and the
    reference parser. *)
Definition python_runtime (alnum : char -> bool) : Runtime :=
  {| unicode_alnum := alnum; urlparse := urlparse_py |}.

Section ClosedForms.

Context {RT : Runtime}.

(** The markdown text of a result, once resolved. *)
Definition md_text (r : CrawlResult) : pystr :=
  match markdown r with
  | MdNone => []
  | MdStr md => md
  | MdResult raw fit =>
      or_default (getattr raw []) (or_default (getattr fit []) [])
  end.

(** A result with its markdown replaced by the resolved text. *)
Definition resolved (r : CrawlResult) : CrawlResult :=
  mkCrawlResult (success r) (error_message r) (MdStr (md_text r))
                (url r) (title r) (depth r).

Definition resolved_value (v : arun_value) : arun_value :=
  match v with
  | One r => One (resolved r)
  | Many rs => Many (map resolved rs)
  end.

(** The crawler whose results carry resolved markdown only. *)
Definition resolved_crawler (CR : Crawler) : Crawler :=
  {| arun_page := fun u => resolved (arun_page u);
     arun_deep := fun u d p => resolved_value (arun_deep u d p) |}.

(** A result whose text has no character that is not whitespace. *)
Definition blank (r : CrawlResult) : bool := forallb is_space (md_text r).

(** The results [crawl_site] persists. *)
Definition kept (r : CrawlResult) : bool := (success r && negb (blank r))%bool.

Definition failed (r : CrawlResult) : bool := negb (success r).

Definition title_of (r : CrawlResult) : pystr :=
  or_default (getattr (title r) []) (url r).

Definition depth_of (r : CrawlResult) : Z :=
  or_default (getattr (depth r) 0%Z) 0%Z.

(** The file and the entry of the result at position [i]. *)
Definition write_of (dir : Path) (i : nat) (r : CrawlResult) : Path * pystr :=
  (joinpath dir (site_filename i r),
   site_page_text (title_of r) (url r) (depth_of r) (md_text r)).

Definition entry_of (dir : Path) (i : nat) (r : CrawlResult) : Page.t :=
  Page.mk (to_str (joinpath dir (site_filename i r))) (url r) (title_of r)
          (depth_of r) (length (md_text r)).

(** The kept results with their positions, from position [i] on. *)
Fixpoint kept_from (i : nat) (rs : list CrawlResult) : list (nat * CrawlResult) :=
  match rs with
  | [] => []
  | r :: rs' =>
      if kept r then (i, r) :: kept_from (S i) rs' else kept_from (S i) rs'
  end.

Definition add_files (w : World) (l : list (Path * pystr)) : World :=
  mkWorld (files w ++ l) (dirs w) (stdout w) (stderr w) (requests w).

Definition entries (dir : Path) (l : list (nat * CrawlResult)) : list Page.t :=
  map (fun ir => entry_of dir (fst ir) (snd ir)) l.

Definition writes (dir : Path) (l : list (nat * CrawlResult)) : list (Path * pystr) :=
  map (fun ir => write_of dir (fst ir) (snd ir)) l.

Definition site_stdout (u : pystr) (d p : Z) (s : SiteSummary) : list pystr :=
  [ lit "Deep crawling " ++ u ++ lit " (depth=" ++ str_of_Z d
      ++ lit ", max_pages=" ++ str_of_Z p ++ lit ") ...";
    [NEWLINE] ++ lit "Crawl complete!";
    summary_line (length (site_pages s)) (site_errors s);
    lit "Index: " ++ to_str (index_path s);
    lit "Pages dir: " ++ to_str (pages_dir s);
    lit "Total content: " ++ fmt_comma (total_size s) ++ lit " chars" ].

End ClosedForms.

(** Lexicographic order on code-point sequences, as a relation. *)
Inductive lex_lt : pystr -> pystr -> Prop :=
| lex_lt_nil (c : char) (b : pystr) : lex_lt [] (c :: b)
| lex_lt_head (x y : char) (a b : pystr) : (x < y)%N -> lex_lt (x :: a) (y :: b)
| lex_lt_tail (x : char) (a b : pystr) : lex_lt a b -> lex_lt (x :: a) (x :: b).

Definition lex_le (a b : pystr) : Prop := a = b \/ lex_lt a b.

(** Depth ascending, then URL in lexicographic order. *)
Definition page_le (a b : Page.t) : Prop :=
  (Page.depth a < Page.depth b)%Z
  \/ (Page.depth a = Page.depth b /\ lex_le (Page.url a) (Page.url b)).

(** A text with no path separator. *)
Definition no_slash (s : pystr) : bool :=
  forallb (fun c => negb (char_eqb c SLASH)) s.

(** A text with no character the URL parser acts on. *)
Definition plain (s : pystr) : bool := forallb (fun c => negb (is_delim c)) s.

Definition not_dotdot (c : pystr) : bool := negb (str_eqb c (lit "..")).

(** A host that names a directory below the output root: it is not an
    absolute path and has no [".."] component. *)
Definition ordinary_host (domain : pystr) : bool :=
  (negb (absolute (of_str domain))
   && forallb not_dotdot (parts (of_str domain)))%bool.

(** The number a string of decimal digits denotes. *)
Definition digit_step (acc : nat) (c : char) : nat :=
  10 * acc + (N.to_nat c - 48).

Definition digits_value (s : pystr) : nat := fold_left digit_step s 0.

(** The page file as the specification words it: a header line with the
    title, a URL line, a depth line, a blank line, then the body. *)
Definition page_text_as_specified (title u : pystr) (d : Z) (body : pystr) : pystr :=
  lit "# " ++ title ++ [NEWLINE]
  ++ lit "URL: " ++ u ++ [NEWLINE]
  ++ lit "Depth: " ++ str_of_Z d ++ [NEWLINE]
  ++ [NEWLINE]
  ++ body.

(* ================================================================= *)
(** ** Sample runs *)

Module Sample.

Definition runtime : Runtime := python_runtime (fun _ => false).

(** A page with a title, a depth and structured markdown whose primary
    text is empty. *)
Definition home : CrawlResult :=
  mkCrawlResult true None (MdResult (Val []) (Val (lit "fit")))
                (lit "http://a.b/") (Val (lit "T")) (Val 2%Z).

Definition guide : CrawlResult :=
  mkCrawlResult true None (MdStr (lit "hello"))
                (lit "http://a.b/x/y") Absent Absent.

(** A fetch that failed. *)
Definition broken : CrawlResult :=
  mkCrawlResult false (Some (lit "boom")) MdNone
                (lit "http://a.b/z") Absent Absent.

(** A page whose markdown is whitespace only. *)
Definition spaces : CrawlResult :=
  mkCrawlResult true None (MdStr (lit "  "))
                (lit "http://a.b/w") Absent Absent.

(** A page with no markdown at all. *)
Definition nothing : CrawlResult :=
  mkCrawlResult true None MdNone (lit "http://a.b/") Absent Absent.

Definition crawler : Crawler :=
  {| arun_page := fun _ => broken;
     arun_deep := fun _ _ _ => Many [home; broken; spaces; guide] |}.

Definition empty_page_crawler : Crawler :=
  {| arun_page := fun _ => nothing;
     arun_deep := fun _ _ _ => One nothing |}.

Definition seed : pystr := lit "http://a.b:80/".
Definition out : pystr := lit ".crawl".

End Sample.

(* ================================================================= *)
(** ** Further definitions for the statements *)

(** The sort key of the entry a result gives. *)
Definition result_key (r : CrawlResult) : Z * pystr := (depth_of r, url r).

(** The tuple order on keys, as a relation. *)
Definition key_le (a b : Z * pystr) : Prop :=
  (fst a < fst b)%Z \/ (fst a = fst b /\ lex_le (snd a) (snd b)).

(** The entries with a given key. *)
Definition has_key (k : Z * pystr) (p : Page.t) : bool :=
  (Z.eqb (Page.depth p) (fst k) && str_eqb (Page.url p) (snd k))%bool.

(** A successful result that is passed over for want of text. *)
Definition skipped (r : CrawlResult) : bool := (success r && blank r)%bool.

(** What [crawl_site] holds when it returns, or nothing if it raised. *)
Definition summary_of (run : result SiteSummary * World) : option SiteSummary :=
  match fst run with
  | Ok s => Some s
  | Raise _ => None
  end.

Module Cases.

(** A crawl in which nothing can be saved: a failed fetch and a page of
    whitespace. *)
Definition barren : Crawler :=
  {| arun_page := fun _ => Sample.guide;
     arun_deep := fun _ _ _ => Many [Sample.broken; Sample.spaces] |}.

(** The results of [Sample.crawler] in another order. *)
Definition shuffled : Crawler :=
  {| arun_page := fun _ => Sample.guide;
     arun_deep := fun _ _ _ =>
       Many [Sample.guide; Sample.spaces; Sample.home; Sample.broken] |}.

(** A URL with no scheme and no host. *)
Definition schemeless : pystr := lit "docs/intro.html".

End Cases.

(* ================================================================= *)
(** ** Strings: stripping, slicing, order *)

Lemma lstrip_nil_iff (p : char -> bool) (s : pystr) :
  lstrip p s = [] <-> forallb p s = true.
Proof.
  induction s as [| c s IH]; simpl.
  - tauto.
  - destruct (p c); simpl.
    + exact IH.
    + split; discriminate.
Qed.

Lemma lstrip_head (p : char -> bool) (s : pystr) :
  match lstrip p s with
  | [] => True
  | c :: _ => p c = false
  end.
Proof.
  induction s as [| c s IH]; simpl; auto.
  destruct (p c) eqn:E; auto.
Qed.

Lemma forallb_rev {A} (p : A -> bool) (l : list A) :
  forallb p (rev l) = forallb p l.
Proof.
  induction l as [| a l IH]; simpl; auto.
  rewrite forallb_app, IH. simpl. rewrite andb_true_r. apply andb_comm.
Qed.

(** [s.strip()] is empty exactly when every character of [s] is stripped. *)
Lemma strip_nil_iff (p : char -> bool) (s : pystr) :
  strip p s = [] <-> forallb p s = true.
Proof.
  unfold strip, rstrip. split.
  - intros H.
    assert (H1 : lstrip p (rev (lstrip p s)) = []).
    { destruct (lstrip p (rev (lstrip p s))) as [| c t]; auto.
      simpl in H. destruct (rev t); discriminate. }
    apply lstrip_nil_iff in H1. rewrite forallb_rev in H1.
    pose proof (lstrip_head p s) as Hh.
    destruct (lstrip p s) as [| c t] eqn:E.
    + now apply lstrip_nil_iff.
    + simpl in H1. rewrite Hh in H1. discriminate.
  - intros H. apply lstrip_nil_iff in H. rewrite H. reflexivity.
Qed.

Lemma lstrip_id (p : char -> bool) (s : pystr) :
  forallb (fun c => negb (p c)) s = true -> lstrip p s = s.
Proof.
  destruct s as [| c s]; simpl; auto.
  destruct (p c); simpl; auto. discriminate.
Qed.

Lemma strip_id (p : char -> bool) (s : pystr) :
  forallb (fun c => negb (p c)) s = true -> strip p s = s.
Proof.
  intros H. unfold strip, rstrip.
  rewrite (lstrip_id p s H).
  rewrite lstrip_id by (now rewrite forallb_rev).
  apply rev_involutive.
Qed.

Lemma replace_char_id (a b : char) (s : pystr) :
  forallb (fun c => negb (char_eqb c a)) s = true -> replace_char a b s = s.
Proof.
  unfold replace_char. induction s as [| c s IH]; simpl; auto.
  intros H. apply andb_true_iff in H as [Hc Hs].
  destruct (char_eqb c a); [discriminate |]. now rewrite IH.
Qed.

Lemma forallb_impl {A} (p q : A -> bool) (l : list A) :
  (forall a, p a = true -> q a = true) ->
  forallb p l = true -> forallb q l = true.
Proof.
  intros Hpq. rewrite !forallb_forall. auto.
Qed.

Lemma forallb_firstn {A} (p : A -> bool) (n : nat) (l : list A) :
  forallb p l = true -> forallb p (firstn n l) = true.
Proof.
  revert n. induction l as [| a l IH]; intros [| n]; simpl; auto.
  intros H. apply andb_true_iff in H as [Ha Hl]. now rewrite Ha, IH.
Qed.

Lemma nonempty_strip (p : char -> bool) (s : pystr) :
  nonempty (strip p s) = negb (forallb p s).
Proof.
  destruct (forallb p s) eqn:E.
  - apply strip_nil_iff in E. now rewrite E.
  - destruct (strip p s) eqn:S; auto.
    apply strip_nil_iff in S. congruence.
Qed.

(* ================================================================= *)
(** ** The loop of [crawl_site] in closed form *)

Section Loop.

Context {RT : Runtime}.

Lemma get_markdown_md_text (r : CrawlResult) :
  get_markdown r = Some (md_text r).
Proof.
  unfold get_markdown, md_text.
  destruct (markdown r) as [| md | raw fit]; auto.
  destruct raw as [| | [| a raw]], fit as [| | [| b fit]]; reflexivity.
Qed.

Lemma md_text_resolved (r : CrawlResult) : md_text (resolved r) = md_text r.
Proof. reflexivity. Qed.

Lemma add_files_nil (w : World) : add_files w [] = w.
Proof. destruct w. unfold add_files. simpl. now rewrite app_nil_r. Qed.

Lemma add_files_app (w : World) (l1 l2 : list (Path * pystr)) :
  add_files (add_files w l1) l2 = add_files w (l1 ++ l2).
Proof. unfold add_files. simpl. now rewrite app_assoc. Qed.

Lemma site_step_run (dir : Path) (i : nat) (r : CrawlResult)
    (st : LoopState) (w : World) :
  site_step dir i r st w =
    if failed r then (Ok (mkLoop (pages st) (errors st + 1)), w)
    else if kept r then
      (Ok (mkLoop (pages st ++ [entry_of dir i r]) (errors st)),
       add_files w [write_of dir i r])
    else (Ok st, w).
Proof.
  unfold site_step, failed, kept, blank.
  destruct (success r); simpl; [| reflexivity].
  rewrite get_markdown_md_text. unfold bind, expect_str, ret. simpl.
  unfold truth, Truthy_str. rewrite nonempty_strip, negb_involutive.
  destruct (forallb is_space (md_text r)); reflexivity.
Qed.

Lemma site_loop_run (dir : Path) (rs : list CrawlResult) :
  forall (i : nat) (st : LoopState) (w : World),
    site_loop dir i rs st w =
      (Ok (mkLoop (pages st ++ entries dir (kept_from i rs))
                  (errors st + length (filter failed rs))),
       add_files w (writes dir (kept_from i rs))).
Proof.
  induction rs as [| r rs IH]; intros i st w; simpl.
  - unfold ret. rewrite app_nil_r, Nat.add_0_r, add_files_nil.
    now destruct st.
  - unfold bind. rewrite site_step_run.
    unfold kept, failed. destruct (success r); simpl.
    + destruct (blank r); simpl; rewrite IH; simpl.
      * reflexivity.
      * rewrite <- app_assoc, add_files_app. reflexivity.
    + rewrite IH. simpl. now rewrite <- Nat.add_assoc.
Qed.

End Loop.

(** Runs the primitive effects of a computation applied to a world, and
    reads the fields of the world it leaves. *)
Ltac run_py :=
  cbn [bind ret raise print eprint write_text mkdir sys_exit expect_str
       arun arun_strategy add_files files dirs stdout stderr requests
       fst snd].

Section Site.

Context {RT : Runtime} {CR : Crawler}.

(** What [crawl_site] returns and leaves in the world. *)
Lemma crawl_site_run (u : pystr) (d p : Z) (out : pystr) (w : World) :
  let out_dir := get_output_dir u out in
  let dir := joinpath out_dir (lit "pages") in
  let rs := as_list (arun_deep u d p) in
  let ps := sort_pages (entries dir (kept_from 0 rs)) in
  let n_err := length (filter failed rs) in
  let idx := joinpath out_dir (lit "index.md") in
  let s := mkSummary ps n_err (list_sum (map Page.size ps)) idx dir in
  crawl_site u d p out w =
    (Ok s,
     mkWorld (files w ++ writes dir (kept_from 0 rs)
                ++ [(idx, index_text u d ps n_err)])
             (dirs w ++ [dir])
             (stdout w ++ site_stdout u d p s)
             (stderr w)
             (requests w ++ [DeepCrawl u d p])).
Proof.
  intros. unfold crawl_site.
  unfold bind at 1. unfold mkdir at 1.
  unfold bind at 1. unfold print at 1.
  unfold bind at 1. unfold arun_strategy at 1.
  unfold bind at 1. rewrite site_loop_run. cbn [pages errors app Nat.add].
  run_py. unfold site_stdout.
  cbn [site_pages site_errors total_size index_path pages_dir].
  fold out_dir. fold dir. fold rs. fold ps. fold n_err. fold idx.
  repeat rewrite <- app_assoc. reflexivity.
Qed.

End Site.

(* ================================================================= *)
(** ** The order of the index *)

Lemma str_ltb_lex_lt (a b : pystr) : str_ltb a b = true <-> lex_lt a b.
Proof.
  revert b. induction a as [| x a IH]; intros [| y b]; simpl.
  - split; [discriminate | inversion 1].
  - split; [constructor | reflexivity].
  - split; [discriminate | inversion 1].
  - destruct (N.ltb_spec x y) as [Hlt | Hge].
    + split; [now constructor | reflexivity].
    + destruct (N.eqb_spec x y) as [-> | Hne].
      * rewrite IH. split; [now constructor |].
        inversion 1; subst; [lia | assumption].
      * split; [discriminate |].
        inversion 1; subst; [lia | congruence].
Qed.

Ltac compare_chars x y :=
  destruct (N.ltb_spec x y), (N.ltb_spec y x),
           (N.eqb_spec x y), (N.eqb_spec y x);
  try (exfalso; lia); try discriminate.

Lemma str_ltb_total (a b : pystr) :
  str_ltb a b = false -> str_ltb b a = false -> a = b.
Proof.
  revert b. induction a as [| x a IH]; intros [| y b]; simpl;
    try discriminate; auto.
  compare_chars x y. intros Hab Hba. subst. f_equal. auto.
Qed.

Lemma str_ltb_asym (a b : pystr) : str_ltb a b = true -> str_ltb b a = false.
Proof.
  revert b. induction a as [| x a IH]; intros [| y b]; simpl;
    try discriminate; auto.
  compare_chars x y; auto.
Qed.

Lemma str_ltb_trans (a b c : pystr) :
  str_ltb a b = true -> str_ltb b c = true -> str_ltb a c = true.
Proof.
  revert b c. induction a as [| x a IH]; intros [| y b] [| z c]; simpl;
    try discriminate; auto.
  destruct (N.ltb_spec x y), (N.ltb_spec y z), (N.ltb_spec x z); auto;
    destruct (N.eqb_spec x y), (N.eqb_spec y z), (N.eqb_spec x z);
    try (exfalso; lia); try discriminate; eauto.
Qed.

Lemma str_leb_lex_le (a b : pystr) : str_leb a b = true <-> lex_le a b.
Proof.
  unfold str_leb, lex_le. rewrite negb_true_iff. split.
  - intros H. destruct (str_ltb a b) eqn:E.
    + right. now apply str_ltb_lex_lt.
    + left. now apply str_ltb_total.
  - intros [-> | H].
    + destruct (str_ltb b b) eqn:E; auto.
      pose proof (str_ltb_asym _ _ E). congruence.
    + apply str_ltb_asym. now apply str_ltb_lex_lt.
Qed.

Lemma lex_le_trans (a b c : pystr) : lex_le a b -> lex_le b c -> lex_le a c.
Proof.
  intros [-> | H1] [-> | H2]; unfold lex_le; auto.
  right. apply str_ltb_lex_lt. apply str_ltb_lex_lt in H1, H2.
  eapply str_ltb_trans; eauto.
Qed.

Section PageOrder.

Lemma key_ltb_true (q p : Page.t) :
  key_ltb (sort_key q) (sort_key p) = true -> page_le q p.
Proof.
  unfold key_ltb, page_le, sort_key. simpl. intros H.
  apply orb_true_iff in H as [H | H].
  - left. now apply Z.ltb_lt.
  - apply andb_true_iff in H as [Hd Hu]. right. split.
    + now apply Z.eqb_eq.
    + right. now apply str_ltb_lex_lt.
Qed.

Lemma key_ltb_false (q p : Page.t) :
  key_ltb (sort_key q) (sort_key p) = false -> page_le p q.
Proof.
  unfold key_ltb, page_le, sort_key. simpl. intros H.
  apply orb_false_iff in H as [Hd H].
  apply Z.ltb_ge in Hd.
  destruct (Z.eqb_spec (Page.depth q) (Page.depth p)) as [E | E].
  - simpl in H. right. split; [congruence |].
    apply str_leb_lex_le. unfold str_leb. now rewrite H.
  - left. lia.
Qed.

Lemma page_le_trans (a b c : Page.t) : page_le a b -> page_le b c -> page_le a c.
Proof.
  unfold page_le. intros [H1 | [H1 U1]] [H2 | [H2 U2]].
  - left. lia.
  - left. lia.
  - left. lia.
  - right. split; [congruence | eapply lex_le_trans; eauto].
Qed.

Lemma insert_page_perm (p : Page.t) (l : list Page.t) :
  Permutation (p :: l) (insert_page p l).
Proof.
  induction l as [| q l IH]; simpl; auto.
  destruct (key_ltb (sort_key q) (sort_key p)); auto.
  rewrite perm_swap. now constructor.
Qed.

Lemma insert_page_sorted (p : Page.t) (l : list Page.t) :
  StronglySorted page_le l -> StronglySorted page_le (insert_page p l).
Proof.
  induction 1 as [| q l Hs IH Hq]; simpl.
  - repeat constructor.
  - destruct (key_ltb (sort_key q) (sort_key p)) eqn:E.
    + constructor; auto.
      eapply Permutation_Forall; [apply insert_page_perm |].
      constructor; auto. now apply key_ltb_true.
    + apply key_ltb_false in E. constructor.
      * now constructor.
      * constructor; auto.
        eapply Forall_impl; [| exact Hq].
        intros c Hc. eapply page_le_trans; eauto.
Qed.

Lemma sort_pages_perm (l : list Page.t) : Permutation l (sort_pages l).
Proof.
  induction l as [| p l IH]; simpl; auto.
  rewrite <- insert_page_perm. now constructor.
Qed.

Lemma sort_pages_sorted (l : list Page.t) : StronglySorted page_le (sort_pages l).
Proof.
  induction l as [| p l IH]; simpl.
  - constructor.
  - now apply insert_page_sorted.
Qed.

End PageOrder.

(* ================================================================= *)
(** ** Filenames *)

Ltac bool_to_prop :=
  repeat match goal with
    | H : _ || _ = true |- _ => apply orb_true_iff in H; destruct H
    | H : _ && _ = true |- _ => apply andb_true_iff in H; destruct H
    | H : N.leb _ _ = true |- _ => apply N.leb_le in H
    | H : N.ltb _ _ = true |- _ => apply N.ltb_lt in H
    | H : N.ltb _ _ = false |- _ => apply N.ltb_ge in H
    | H : N.eqb _ _ = true |- _ => apply N.eqb_eq in H
    | H : char_eqb _ _ = true |- _ => apply N.eqb_eq in H
    end.

Lemma digits_of_uint (d : Decimal.uint) :
  forallb is_ascii_digit (lit (NilEmpty.string_of_uint d)) = true.
Proof.
  induction d; simpl; auto.
Qed.

Lemma str_of_nat_digits (n : nat) : forallb is_ascii_digit (str_of_nat n) = true.
Proof.
  unfold str_of_nat, NilZero.string_of_uint.
  destruct (Nat.to_uint n); try reflexivity; apply digits_of_uint.
Qed.

Lemma digits_value_of_uint (d : Decimal.uint) :
  forall acc,
    fold_left digit_step (lit (NilEmpty.string_of_uint d)) acc
    = Nat.of_uint_acc d acc.
Proof.
  induction d; intros acc;
    cbn [NilEmpty.string_of_uint lit list_ascii_of_string map fold_left
         Nat.of_uint_acc];
    try reflexivity;
    fold (lit (NilEmpty.string_of_uint d)); rewrite IHd; f_equal;
    unfold digit_step; rewrite Nat.tail_mul_spec;
    vm_compute (N.to_nat _ - 48); lia.
Qed.

Lemma digits_value_str_of_nat (n : nat) : digits_value (str_of_nat n) = n.
Proof.
  pose proof (Unsigned.of_to n) as H.
  unfold str_of_nat, NilZero.string_of_uint, digits_value.
  destruct (Nat.to_uint n) eqn:E;
    try (rewrite digits_value_of_uint; exact H).
  simpl in H. subst n. reflexivity.
Qed.

(** Without its thousands separators, [f"{n:,}"] is [str(n)]: the number
    shown is [n]. *)
Lemma commas_rev_digits (ds : pystr) :
  forallb is_ascii_digit ds = true ->
  forall k, filter (fun c => negb (char_eqb c COMMA)) (commas_rev k ds) = ds.
Proof.
  induction ds as [| c ds IH]; intros H k; [reflexivity |].
  simpl in H. apply andb_true_iff in H as [Hc Hds].
  assert (Hk : negb (char_eqb c COMMA) = true).
  { unfold is_ascii_digit, in_range in Hc. apply andb_true_iff in Hc as [H1 H2].
    apply N.leb_le in H1. apply negb_true_iff, N.eqb_neq. unfold COMMA. lia. }
  destruct k as [| k]; cbn [commas_rev filter].
  - change (negb (char_eqb COMMA COMMA)) with false. cbn iota.
    now rewrite Hk, IH.
  - now rewrite Hk, IH.
Qed.

Lemma fmt_comma_value (n : nat) :
  digits_value (filter (fun c => negb (char_eqb c COMMA)) (fmt_comma n)) = n.
Proof.
  unfold fmt_comma. rewrite filter_rev, commas_rev_digits.
  - rewrite rev_involutive. apply digits_value_str_of_nat.
  - rewrite forallb_rev. apply str_of_nat_digits.
Qed.

Lemma fmt_03d_digits (i : nat) : forallb is_ascii_digit (fmt_03d i) = true.
Proof.
  unfold fmt_03d. rewrite forallb_app, str_of_nat_digits, andb_true_r.
  induction (3 - length (str_of_nat i)); simpl; auto.
Qed.

Lemma fmt_03d_length (i : nat) : 3 <= length (fmt_03d i).
Proof.
  unfold fmt_03d. rewrite length_app, repeat_length. lia.
Qed.

Lemma split_on_no_slash (s : pystr) : no_slash s = true -> split_on SLASH s = [s].
Proof.
  unfold no_slash. induction s as [| c s IH]; simpl; auto.
  intros H. apply andb_true_iff in H as [Hc Hs].
  rewrite (IH Hs). destruct (char_eqb c SLASH); [discriminate | reflexivity].
Qed.

(** Joining a single well-formed component appends it. *)
Lemma joinpath_component (p : Path) (s : pystr) :
  no_slash s = true -> 2 <= length s ->
  joinpath p s = mkPath (absolute p) (parts p ++ [s]).
Proof.
  intros Hs Hl. unfold joinpath, of_str.
  rewrite (split_on_no_slash _ Hs).
  destruct s as [| c s]; [simpl in Hl; lia |].
  assert (Hc : char_eqb c SLASH = false).
  { unfold no_slash in Hs. simpl in Hs. apply andb_true_iff in Hs as [Hc _].
    now apply negb_true_iff in Hc. }
  cbn [absolute parts]. rewrite Hc.
  assert (Hk : keep_part (c :: s) = true).
  { unfold keep_part. simpl. unfold str_eqb.
    destruct (list_eq_dec N.eq_dec (c :: s) (lit ".")) as [E | E]; auto.
    rewrite E in Hl. simpl in Hl. lia. }
  simpl. rewrite Hk. reflexivity.
Qed.

Section Filenames.

Context {RT : Runtime}.

Lemma underscore_safe : is_safe UNDERSCORE = true.
Proof. reflexivity. Qed.

(** No character of the kept class is one the URL parser acts on; in
    particular none is a path separator. *)
Lemma is_safe_not_delim (c : char) : is_safe c = true -> is_delim c = false.
Proof.
  unfold is_safe, is_word, is_delim.
  destruct (N.ltb c 128) eqn:E; intros H.
  - unfold is_ascii_alnum, is_ascii_digit, is_ascii_alpha, in_range,
      UNDERSCORE, HYPHEN, DOT in H.
    bool_to_prop;
      repeat (apply orb_false_iff; split);
      try (apply N.leb_gt); try (apply N.eqb_neq); lia.
  - bool_to_prop;
      repeat (apply orb_false_iff; split);
      try (apply N.leb_gt); try (apply N.eqb_neq);
      unfold HYPHEN, DOT in *; lia.
Qed.

Lemma is_safe_not_slash (c : char) :
  is_safe c = true -> negb (char_eqb c SLASH) = true.
Proof.
  intros H. apply is_safe_not_delim in H. unfold is_delim in H.
  repeat (apply orb_false_iff in H; destruct H as [H ?]).
  unfold char_eqb, SLASH.
  repeat match goal with
    | X : _ || _ = false |- _ => apply orb_false_iff in X; destruct X
    end.
  apply negb_true_iff. assumption.
Qed.

Lemma re_sub_unsafe_safe (s : pystr) : forallb is_safe (re_sub_unsafe s) = true.
Proof.
  unfold re_sub_unsafe. induction s as [| c s IH]; simpl; auto.
  rewrite IH, andb_true_r.
  destruct (is_safe c) eqn:E; [exact E | exact underscore_safe].
Qed.

Lemma re_sub_unsafe_id (s : pystr) :
  forallb is_safe s = true -> re_sub_unsafe s = s.
Proof.
  unfold re_sub_unsafe. induction s as [| c s IH]; simpl; auto.
  intros H. apply andb_true_iff in H as [Hc Hs]. now rewrite Hc, IH.
Qed.

Lemma sanitize_filename_safe (u : pystr) :
  forallb is_safe (sanitize_filename u) = true.
Proof.
  unfold sanitize_filename, slice_to.
  apply forallb_firstn, re_sub_unsafe_safe.
Qed.

Lemma sanitize_filename_no_slash (u : pystr) :
  no_slash (sanitize_filename u) = true.
Proof.
  unfold no_slash. eapply forallb_impl; [| apply sanitize_filename_safe].
  apply is_safe_not_slash.
Qed.

Lemma sanitize_filename_length (u : pystr) :
  1 <= length (sanitize_filename u) <= 100.
Proof.
  unfold sanitize_filename, slice_to, re_sub_unsafe.
  rewrite length_firstn, length_map.
  set (q := replace_char _ _ _).
  assert (1 <= length (or_default (Some q) (lit "index"))).
  { unfold or_default, truth, Truthy_str.
    destruct q; simpl; lia. }
  lia.
Qed.

Lemma site_filename_component (i : nat) (r : CrawlResult) :
  no_slash (site_filename i r) = true /\ 2 <= length (site_filename i r).
Proof.
  unfold site_filename. split.
  - unfold no_slash. rewrite !forallb_app.
    fold (no_slash (sanitize_filename (url r))).
    rewrite sanitize_filename_no_slash. simpl.
    rewrite andb_true_r.
    eapply forallb_impl; [| apply fmt_03d_digits].
    intros c Hc. unfold is_ascii_digit, in_range in Hc. bool_to_prop.
    apply negb_true_iff, N.eqb_neq. unfold SLASH. lia.
  - rewrite length_app. pose proof (fmt_03d_length i). lia.
Qed.

Lemma page_filename_component (u : pystr) :
  no_slash (sanitize_filename u ++ lit ".md") = true
  /\ 2 <= length (sanitize_filename u ++ lit ".md").
Proof.
  split.
  - unfold no_slash. rewrite forallb_app.
    fold (no_slash (sanitize_filename u)).
    now rewrite sanitize_filename_no_slash.
  - rewrite length_app. simpl. lia.
Qed.

End Filenames.

(* ================================================================= *)
(** ** The reference parser on text without URL syntax *)

Lemma break_at_none (c : char) (s : pystr) :
  forallb (fun x => negb (char_eqb x c)) s = true -> break_at c s = None.
Proof.
  induction s as [| x s IH]; simpl; auto.
  intros H. apply andb_true_iff in H as [Hx Hs].
  apply negb_true_iff in Hx. now rewrite Hx, IH.
Qed.

Lemma filter_all {A} (p : A -> bool) (l : list A) :
  forallb p l = true -> filter p l = l.
Proof.
  induction l as [| a l IH]; simpl; auto.
  intros H. apply andb_true_iff in H as [Ha Hl]. now rewrite Ha, IH.
Qed.

Lemma contains_none (c : char) (s : pystr) :
  forallb (fun x => negb (char_eqb x c)) s = true -> contains c s = false.
Proof.
  unfold contains. induction s as [| x s IH]; simpl; auto.
  intros H. apply andb_true_iff in H as [Hx Hs].
  rewrite (IH Hs), orb_false_r.
  apply negb_true_iff in Hx. unfold char_eqb in *. now rewrite N.eqb_sym.
Qed.

Lemma plain_avoids (s : pystr) (d : char) :
  is_delim d = true -> plain s = true ->
  forallb (fun x => negb (char_eqb x d)) s = true.
Proof.
  intros Hd. apply forallb_impl. intros c Hc.
  apply negb_true_iff in Hc. apply negb_true_iff.
  unfold char_eqb. destruct (N.eqb_spec c d); congruence.
Qed.

(** On text with no delimiter and no control character the parser finds
    nothing to split: the path is the whole text. *)
Lemma urlparse_py_plain (s : pystr) :
  plain s = true -> path (urlparse_py s) = s.
Proof.
  intros H. unfold urlparse_py.
  rewrite lstrip_id.
  2:{ revert H. apply forallb_impl. intros c Hc.
      apply negb_true_iff in Hc. unfold is_delim in Hc.
      apply negb_true_iff.
      repeat (apply orb_false_iff in Hc; destruct Hc as [Hc ?]). exact Hc. }
  rewrite filter_all.
  2:{ revert H. apply forallb_impl. intros c Hc.
      apply negb_true_iff in Hc. unfold is_delim in Hc.
      repeat (apply orb_false_iff in Hc; destruct Hc as [Hc ?]).
      apply N.leb_gt in Hc. unfold unsafe_byte.
      apply negb_true_iff.
      repeat (apply orb_false_iff; split); apply N.eqb_neq; lia. }
  unfold split_scheme.
  rewrite (break_at_none COLON s) by (now apply plain_avoids).
  assert (Hhead : match s with
                  | 47%N :: 47%N :: u' => splitnetloc u'
                  | _ => ([], s)
                  end = ([], s)).
  { pose proof (plain_avoids s SLASH eq_refl H) as Hs.
    destruct s as [| c s]; auto. simpl in Hs.
    apply andb_true_iff in Hs as [Hc _]. apply negb_true_iff in Hc.
    unfold char_eqb, SLASH in Hc. apply N.eqb_neq in Hc.
    destruct c as [| pc]; auto.
    repeat (destruct pc as [pc | pc |]; auto); congruence. }
  rewrite Hhead. unfold split_first.
  rewrite (break_at_none 35%N s) by (now apply plain_avoids).
  rewrite (break_at_none 63%N s) by (now apply plain_avoids).
  rewrite (contains_none 59%N s) by (now apply plain_avoids).
  rewrite andb_false_r. reflexivity.
Qed.

(* ================================================================= *)
(** ** Markdown resolution *)

(** C8. [get_markdown] returns a string for every crawl result, never
    [None]: the empty string when the markdown field is [None], the field
    itself when it is a string, and for a structured object its
    [raw_markdown] when that is a non-empty string, else its [fit_markdown]
    when that is a non-empty string, else the empty string.  The resolution
    is all that the crawl commands see of the field: both commands behave the
    same on the results with the markdown replaced by its resolved text. *)
Theorem get_markdown_total {RT : Runtime} (r : CrawlResult) :
  (exists s : pystr, get_markdown r = Some s)
  /\ (markdown r = MdNone -> get_markdown r = Some [])
  /\ (forall s, markdown r = MdStr s -> get_markdown r = Some s)
  /\ (forall raw fit, markdown r = MdResult raw fit ->
        get_markdown r =
          Some (match getattr raw [] with
                | Some (c :: s) => c :: s
                | _ => match getattr fit [] with
                       | Some (c :: s) => c :: s
                       | _ => []
                       end
                end))
  /\ get_markdown (resolved r) = get_markdown r
  /\ (forall (CR : Crawler) u out w,
        crawl_page (CR := resolved_crawler CR) u out w = crawl_page u out w)
  /\ (forall (CR : Crawler) u d p out w,
        crawl_site (CR := resolved_crawler CR) u d p out w
        = crawl_site u d p out w).
Proof.
  split; [| split; [| split; [| split; [| split; [| split]]]]].
  - eexists. apply get_markdown_md_text.
  - intros E. unfold get_markdown. now rewrite E.
  - intros s E. unfold get_markdown. now rewrite E.
  - intros raw fit E. unfold get_markdown. rewrite E.
    destruct raw as [| | [| a raw]], fit as [| | [| b fit]]; reflexivity.
  - now rewrite !get_markdown_md_text.
  - intros CR u out w. unfold crawl_page, bind, arun, mkdir, print. simpl.
    rewrite !get_markdown_md_text. reflexivity.
  - intros CR u d p out w. rewrite !crawl_site_run. simpl.
    assert (K : forall rs i,
               kept_from i (map resolved rs) =
               map (fun ir => (fst ir, resolved (snd ir))) (kept_from i rs)).
    { induction rs as [| x rs IH]; intros i; simpl; auto.
      change (kept (resolved x)) with (kept x).
      destruct (kept x); simpl; now rewrite IH. }
    assert (F : forall rs, filter failed (map resolved rs) = map resolved (filter failed rs)).
    { induction rs as [| x rs IH]; simpl; auto.
      change (failed (resolved x)) with (failed x).
      destruct (failed x); simpl; now rewrite IH. }
    assert (L : as_list (resolved_value (arun_deep u d p))
                = map resolved (as_list (arun_deep u d p))).
    { now destruct (arun_deep u d p). }
    rewrite L, K, F, length_map.
    unfold entries, writes. rewrite !map_map. reflexivity.
Qed.

Lemma get_markdown_total_witness :
  get_markdown Sample.home = Some (lit "fit")
  /\ get_markdown Sample.nothing = Some [].
Proof.
  split.
  - destruct (get_markdown_total (RT := Sample.runtime) Sample.home)
      as (_ & _ & _ & H & _).
    exact (H (Val []) (Val (lit "fit")) eq_refl).
  - destruct (get_markdown_total (RT := Sample.runtime) Sample.nothing)
      as (_ & H & _).
    exact (H eq_refl).
Defined.

(* ================================================================= *)
(** ** Filename sanitization *)

(** C9. Sanitization is idempotent.  The output of [sanitize_filename] is
    non-empty, at most 100 characters long and made of word characters,
    hyphens and dots only, and sanitizing it again returns it unchanged.
    The URL parser is a parameter of the script's embedding; what is used of
    it is that the path of a text with no URL delimiter and no control
    character is the text itself, as holds of [urlparse]. *)
Theorem sanitize_filename_idempotent {RT : Runtime}
    (Hparse : forall s, plain s = true -> path (urlparse s) = s) (u : pystr) :
  let s := sanitize_filename u in
  forallb is_safe s = true
  /\ 1 <= length s <= 100
  /\ sanitize_filename s = s.
Proof.
  intros s. pose proof (sanitize_filename_safe u) as Hsafe.
  pose proof (sanitize_filename_length u) as Hlen.
  fold s in Hsafe, Hlen. split; [exact Hsafe | split; [exact Hlen |]].
  assert (Hplain : plain s = true).
  { unfold plain. revert Hsafe. apply forallb_impl. intros c Hc.
    apply negb_true_iff. now apply is_safe_not_delim. }
  assert (Hslash : forallb (fun c => negb (char_eqb SLASH c)) s = true).
  { pose proof (plain_avoids s SLASH eq_refl Hplain) as Hs.
    revert Hs. apply forallb_impl. intros c Hc.
    unfold char_eqb in *. now rewrite N.eqb_sym. }
  unfold sanitize_filename at 1. rewrite (Hparse s Hplain).
  rewrite strip_id by exact Hslash.
  rewrite replace_char_id by (now apply plain_avoids).
  assert (Hne : or_default (Some s) (lit "index") = s).
  { unfold or_default, truth, Truthy_str.
    destruct s; [simpl in Hlen; lia | reflexivity]. }
  rewrite Hne, (re_sub_unsafe_id s Hsafe).
  unfold slice_to. apply firstn_all2. lia.
Qed.

Lemma sanitize_filename_idempotent_witness :
  let s := sanitize_filename (RT := Sample.runtime) (lit "http://a.b/docs/get started/?q=1") in
  s = lit "docs_get_started" /\ sanitize_filename (RT := Sample.runtime) s = s.
Proof.
  intros s. split; [reflexivity |].
  exact (proj2 (proj2 (sanitize_filename_idempotent (RT := Sample.runtime)
                         urlparse_py_plain
                         (lit "http://a.b/docs/get started/?q=1")))).
Defined.

(* ================================================================= *)
(** ** Argument clamping *)

(** C4. For all integer arguments [d] and [p] of the site command, the
    crawl is requested with depth [max(1, min(10, d))], which lies between 1
    and 10, and with page bound [max(1, min(500, p))], which lies between 1
    and 500: these are the values [crawl_site] is called with and the values
    the crawler receives. *)
Theorem site_bounds_clamped {RT : Runtime} {CR : Crawler}
    (out u : pystr) (d p : Z) (w : World) :
  exists d' p' : Z,
    d' = Z.max 1 (Z.min 10 d) /\ p' = Z.max 1 (Z.min 500 p)
    /\ (1 <= d' <= 10)%Z /\ (1 <= p' <= 500)%Z
    /\ main out (SiteCmd u d p) w = (crawl_site u d' p' out ;; ret tt) w
    /\ requests (snd (main out (SiteCmd u d p) w))
       = requests w ++ [DeepCrawl u d' p'].
Proof.
  exists (Z.max 1 (Z.min 10 d)), (Z.max 1 (Z.min 500 p)).
  repeat split; try lia.
  unfold main, bind. rewrite crawl_site_run. reflexivity.
Qed.

(* ================================================================= *)
(** ** Errors and exit status *)

(** C1. A failed page does not stop a site crawl.  In the loop, a result
    whose success flag is false adds exactly one to the error counter,
    changes nothing else, and the loop goes on with the next result.  The
    crawl returns normally, its final error count is the number of
    unsuccessful results, and the index file, which reports that count, is
    the last file written. *)
Theorem site_failures_counted {RT : Runtime} {CR : Crawler}
    (u : pystr) (d p : Z) (out : pystr) (w : World) :
  let rs := as_list (arun_deep u d p) in
  (forall dir i r rest st w0,
      success r = false ->
      site_loop dir i (r :: rest) st w0
      = site_loop dir (S i) rest (mkLoop (pages st) (errors st + 1)) w0)
  /\ exists (s : SiteSummary) (w' : World) (page_files : list (Path * pystr)),
      crawl_site u d p out w = (Ok s, w')
      /\ site_errors s = length (filter (fun r => negb (success r)) rs)
      /\ index_path s = joinpath (get_output_dir u out) (lit "index.md")
      /\ files w' = files w ++ page_files
                    ++ [(index_path s,
                         index_text u d (site_pages s) (site_errors s))]
      /\ In (summary_line (length (site_pages s)) (site_errors s)) (stdout w').
Proof.
  intros rs. split.
  - intros dir i r rest st w0 Hr. simpl. unfold bind.
    rewrite site_step_run. unfold failed. rewrite Hr. reflexivity.
  - eexists _, _, _. rewrite crawl_site_run. split; [reflexivity |].
    cbn [site_errors index_path site_pages files stdout].
    repeat split.
    apply in_or_app. right. unfold site_stdout. simpl. auto.
Qed.

Lemma site_failures_counted_witness :
  exists (s : SiteSummary) (w' : World),
    crawl_site (RT := Sample.runtime) (CR := Sample.crawler)
               Sample.seed 3 50 Sample.out empty_world = (Ok s, w')
    /\ site_errors s = 1
    /\ length (site_pages s) = 2.
Proof.
  destruct (site_failures_counted (RT := Sample.runtime) (CR := Sample.crawler)
              Sample.seed 3 50 Sample.out empty_world)
    as [_ (s & w' & fs & E & Herr & _)].
  exists s, w'. split; [exact E |]. split; [exact Herr |].
  vm_compute in E. injection E as <- _. reflexivity.
Defined.

(** C3. When the fetch of the single-page command is unsuccessful, the
    program prints ["Error: "] and the error message on standard error and
    exits with status 1, and no file is written.  The site command returns
    normally, with exit status 0, whatever the results are: failed pages only
    show in the summary line it prints, ["Pages: N crawled, E errors"] with
    [E] the number of unsuccessful results in decimal, and nothing goes to
    standard error. *)
Theorem exit_behaviour {RT : Runtime} {CR : Crawler} (out : pystr) (w : World) :
  (forall u,
      success (arun_page u) = false ->
      exists w',
        main out (PageCmd u) w = (Raise (SystemExit 1), w')
        /\ exit_status (fst (main out (PageCmd u) w)) = 1%Z
        /\ stderr w' = stderr w ++ [lit "Error: " ++ fmt (error_message (arun_page u))]
        /\ files w' = files w)
  /\ (forall u d p,
        let n_errors :=
          length (filter (fun r => negb (success r))
                         (as_list (arun_deep u (Z.max 1 (Z.min 10 d))
                                               (Z.max 1 (Z.min 500 p))))) in
        exists (w' : World) (n_pages : nat),
          main out (SiteCmd u d p) w = (Ok tt, w')
          /\ exit_status (fst (main out (SiteCmd u d p) w)) = 0%Z
          /\ stderr w' = stderr w
          /\ In (lit "Pages: " ++ str_of_nat n_pages ++ lit " crawled, "
                 ++ str_of_nat n_errors ++ lit " errors")
                (stdout w')
          /\ digits_value (str_of_nat n_errors) = n_errors).
Proof.
  split.
  - intros u Hu. unfold main, crawl_page, bind, mkdir, print, arun. simpl.
    rewrite Hu. simpl. eexists. repeat split.
  - intros u d p n_errors. unfold main, bind. rewrite crawl_site_run.
    cbn [fst snd ret stderr stdout].
    eexists _, _. split; [reflexivity |]. split; [reflexivity |].
    split; [reflexivity |]. split; [| apply digits_value_str_of_nat].
    apply in_or_app. right. unfold site_stdout.
    cbn [site_pages site_errors]. right. right. left. reflexivity.
Qed.

Lemma exit_behaviour_witness :
  exit_status (fst (main (RT := Sample.runtime) (CR := Sample.crawler)
                         Sample.out (PageCmd Sample.seed) empty_world)) = 1%Z
  /\ exit_status (fst (main (RT := Sample.runtime) (CR := Sample.crawler)
                            Sample.out (SiteCmd Sample.seed 3 50) empty_world)) = 0%Z.
Proof.
  destruct (exit_behaviour (RT := Sample.runtime) (CR := Sample.crawler)
              Sample.out empty_world) as [Hpage Hsite].
  split.
  - destruct (Hpage Sample.seed eq_refl) as (w' & _ & H & _). exact H.
  - destruct (Hsite Sample.seed 3%Z 50%Z) as (w' & n & _ & H & _). exact H.
Defined.

(* ================================================================= *)
(** ** Order of the index *)

(** C5. Whatever results the crawler returns and in whatever order, the
    pages [crawl_site] ends with are the entries its loop collected,
    rearranged so that they are sorted by depth ascending and, at equal
    depth, by URL in lexicographic order; the index file lists them in that
    order. *)
Theorem site_pages_sorted {RT : Runtime} {CR : Crawler}
    (u : pystr) (d p : Z) (out : pystr) (w : World) :
  exists (s : SiteSummary) (w' : World) (st : LoopState),
    crawl_site u d p out w = (Ok s, w')
    /\ (forall w0, fst (site_loop (pages_dir s) 0 (as_list (arun_deep u d p))
                                  (mkLoop [] 0) w0) = Ok st)
    /\ Permutation (pages st) (site_pages s)
    /\ StronglySorted page_le (site_pages s)
    /\ In (index_path s, index_text u d (site_pages s) (site_errors s)) (files w').
Proof.
  eexists _, _, _. rewrite crawl_site_run. split; [reflexivity |].
  cbn [pages_dir site_pages index_path site_errors files].
  split; [| split; [| split]].
  - intros w0. rewrite site_loop_run. reflexivity.
  - simpl. apply sort_pages_perm.
  - apply sort_pages_sorted.
  - apply in_or_app. right. apply in_or_app. right. left. reflexivity.
Qed.

(* ================================================================= *)
(** ** Pages without text *)

(** In a site crawl a successful result whose markdown has no character
    that is not whitespace is passed over: no file, no entry, no error. *)
Lemma site_step_skips_blank {RT : Runtime} (dir : Path) (i : nat)
    (r : CrawlResult) (st : LoopState) (w : World) :
  success r = true -> blank r = true -> site_step dir i r st w = (Ok st, w).
Proof.
  intros Hs Hb. rewrite site_step_run. unfold failed, kept.
  now rewrite Hs, Hb.
Qed.

(** The single-page crawl has no such test: every successful result is
    written, whatever its text. *)
Lemma crawl_page_always_writes {RT : Runtime} {CR : Crawler}
    (u out : pystr) (w : World) :
  success (arun_page u) = true ->
  exists w',
    crawl_page u out w = (Ok tt, w')
    /\ files w' = files w
         ++ [(joinpath (get_output_dir u out) (sanitize_filename u ++ lit ".md"),
              page_text (or_default (getattr (title (arun_page u)) []) u) u
                        (Some (md_text (arun_page u))))]
    /\ stderr w' = stderr w.
Proof.
  intros Hs. unfold crawl_page, bind, mkdir, print, arun. simpl.
  rewrite Hs. simpl. rewrite get_markdown_md_text. simpl.
  eexists. repeat split.
Qed.

(** C2, at a page with no markdown: the single-page crawl of a successfully
    fetched page with empty markdown returns normally and has written the
    page file, which holds the header and no body. *)
Theorem crawl_page_saves_empty_page :
  let run := crawl_page (RT := Sample.runtime) (CR := Sample.empty_page_crawler)
                        (lit "http://a.b/") Sample.out empty_world in
  blank Sample.nothing = true
  /\ fst run = Ok tt
  /\ files (snd run)
     = [(mkPath false [lit ".crawl"; lit "a.b"; lit "index.md"],
         lit "# http://a.b/" ++ [NEWLINE; NEWLINE] ++ lit "URL: http://a.b/"
         ++ [NEWLINE; NEWLINE])]
  /\ stdout (snd run)
     = [lit "Crawling http://a.b/ ..."; lit "Saved: .crawl/a.b/index.md";
        lit "Size: 0 chars"].
Proof.
  vm_compute. repeat split.
Qed.

(* ================================================================= *)
(** ** Where the files go *)

Lemma str_eqb_refl (s : pystr) : str_eqb s s = true.
Proof.
  unfold str_eqb. destruct (list_eq_dec N.eq_dec s s); congruence.
Qed.

Lemma strip_prefix_app (l rel : list pystr) : strip_prefix l (l ++ rel) = Some rel.
Proof.
  induction l as [| a l IH]; simpl; auto.
  now rewrite str_eqb_refl.
Qed.

Lemma descend_ordinary (rel : list pystr) :
  forallb not_dotdot rel = true ->
  forall n, descend n rel = Some (n + length rel).
Proof.
  induction rel as [| c rel IH]; simpl; intros H n.
  - f_equal. lia.
  - apply andb_true_iff in H as [Hc Hr]. unfold not_dotdot in Hc.
    apply negb_true_iff in Hc. rewrite Hc, (IH Hr). f_equal. lia.
Qed.

(** Extending a directory by components other than [".."] stays inside. *)
Lemma inside_extend (root : Path) (rel : list pystr) :
  forallb not_dotdot rel = true ->
  inside root (mkPath (absolute root) (parts root ++ rel)) = true.
Proof.
  intros H. unfold inside. simpl.
  rewrite eqb_reflx, strip_prefix_app, (descend_ordinary rel H). reflexivity.
Qed.

Section Layout.

Context {RT : Runtime}.

Lemma site_file_path (dir : Path) (i : nat) (r : CrawlResult) :
  joinpath dir (site_filename i r)
  = mkPath (absolute dir) (parts dir ++ [site_filename i r]).
Proof.
  destruct (site_filename_component i r) as [Hs Hl].
  now apply joinpath_component.
Qed.

Lemma site_filename_not_dotdot (i : nat) (r : CrawlResult) :
  not_dotdot (site_filename i r) = true.
Proof.
  unfold not_dotdot, str_eqb.
  destruct (list_eq_dec N.eq_dec (site_filename i r) (lit "..")) as [E | E]; auto.
  pose proof (fmt_03d_length i) as Hl.
  apply (f_equal (@length char)) in E. unfold site_filename in E.
  rewrite length_app in E. simpl in E. lia.
Qed.

(** X8. With an ordinary host, every file of a site crawl is written inside
    the output root: the page files under [pages/] of the host's directory
    and the index next to [pages/]. *)
Lemma site_files_inside_root {CR : Crawler} (u : pystr) (d p : Z)
    (out : pystr) (w : World) :
  ordinary_host (replace_char COLON UNDERSCORE (netloc (urlparse u))) = true ->
  forall f, In f (files (snd (crawl_site u d p out w))) ->
            In f (files w) \/ inside (of_str out) (fst f) = true.
Proof.
  intros Hhost f. rewrite crawl_site_run. cbn [snd files].
  unfold get_output_dir.
  set (domain := replace_char COLON UNDERSCORE (netloc (urlparse u))) in *.
  unfold ordinary_host in Hhost. apply andb_true_iff in Hhost as [Habs Hparts].
  apply negb_true_iff in Habs.
  assert (Hdir : joinpath (of_str out) domain
                 = mkPath (absolute (of_str out))
                          (parts (of_str out) ++ parts (of_str domain))).
  { unfold joinpath. now rewrite Habs. }
  rewrite Hdir.
  rewrite !joinpath_component by (try reflexivity; simpl; lia).
  cbn [absolute parts].
  intros Hin. apply in_app_or in Hin as [Hin | Hin]; [now left | right].
  apply in_app_or in Hin as [Hin | Hin].
  - unfold writes in Hin. apply in_map_iff in Hin as ([i r] & <- & _).
    unfold write_of. cbn [fst snd]. rewrite site_file_path. cbn [absolute parts].
    rewrite <- !app_assoc. apply inside_extend.
    rewrite !forallb_app, Hparts. simpl.
    now rewrite site_filename_not_dotdot.
  - destruct Hin as [<- | []]. cbn [fst].
    rewrite <- !app_assoc. apply inside_extend.
    rewrite !forallb_app, Hparts. reflexivity.
Qed.

End Layout.

(** C6, at a URL whose host is [".."].  The filename is sanitized, but the
    host is used as a directory name with only its colons replaced: for the
    URL [http://../x] and the output root [.crawl] the output directory is
    [.crawl/..], so the site crawl writes its index to [.crawl/../index.md],
    which is outside the output root, whatever the crawler returns. *)
Theorem index_written_outside_root (alnum : char -> bool) (CR : Crawler)
    (d p : Z) (w : World) :
  let u := lit "http://../x" in
  let run := crawl_site (RT := python_runtime alnum) u d p (lit ".crawl") w in
  exists (s : SiteSummary) (w' : World),
    run = (Ok s, w')
    /\ get_output_dir (RT := python_runtime alnum) u (lit ".crawl")
       = mkPath false [lit ".crawl"; lit ".."]
    /\ index_path s = mkPath false [lit ".crawl"; lit ".."; lit "index.md"]
    /\ to_str (index_path s) = lit ".crawl/../index.md"
    /\ inside (of_str (lit ".crawl")) (index_path s) = false
    /\ In (index_path s,
           index_text u d (site_pages s) (site_errors s))
          (files w').
Proof.
  intros u run. subst run. rewrite crawl_site_run.
  eexists _, _. split; [reflexivity |].
  cbn [index_path site_pages site_errors files].
  repeat split.
  apply in_or_app. right. apply in_or_app. right. left. reflexivity.
Qed.

(* ================================================================= *)
(** ** Layout and format of the site output *)

(** The kept results are the successful results with some text, each with
    its position in the list. *)
Lemma in_kept_from (rs : list CrawlResult) :
  forall (k i : nat) (r : CrawlResult),
    In (i, r) (kept_from k rs)
    <-> k <= i /\ nth_error rs (i - k) = Some r /\ kept r = true.
Proof.
  induction rs as [| x rs IH]; intros k i r; simpl.
  - split; [tauto |]. intros (_ & H & _). destruct (i - k); discriminate.
  - assert (Hstep : In (i, r) (kept_from (S k) rs)
                    <-> k < i /\ nth_error (x :: rs) (i - k) = Some r /\ kept r = true).
    { rewrite IH. split.
      - intros (Hk & Hn & Hr). split; [lia |]. split; auto.
        replace (i - k) with (S (i - S k)) by lia. exact Hn.
      - intros (Hk & Hn & Hr). split; [lia |]. split; auto.
        replace (i - k) with (S (i - S k)) in Hn by lia. exact Hn. }
    destruct (kept x) eqn:Hx; simpl; rewrite Hstep.
    + split.
      * intros [E | (Hk & Hn & Hr)].
        -- injection E as <- <-. rewrite Nat.sub_diag. simpl. auto.
        -- split; [lia | auto].
      * intros (Hk & Hn & Hr).
        destruct (Nat.eq_dec k i) as [<- | Hne].
        -- left. rewrite Nat.sub_diag in Hn. simpl in Hn. congruence.
        -- right. split; [lia | auto].
    + split.
      * intros (Hk & Hn & Hr). split; [lia | auto].
      * intros (Hk & Hn & Hr).
        destruct (Nat.eq_dec k i) as [<- | Hne].
        -- rewrite Nat.sub_diag in Hn. simpl in Hn. congruence.
        -- split; [lia | auto].
Qed.

(** C7, as amended.  The site crawl writes, in this order: for each
    successful result with some text, at position [i] of the result list, the
    file [pages/{i:03d}_{sanitized path}.md] of the host's directory, holding
    the header line ["# " title], a blank line, the line ["URL: " url], the
    line ["Depth: " depth], a blank line and the markdown body; then the file
    [index.md] of the host's directory.  The host's directory is the output
    root joined with the URL's network location, colons replaced by
    underscores. *)
Theorem site_output_layout {RT : Runtime} {CR : Crawler}
    (u : pystr) (d p : Z) (out : pystr) (w : World) :
  let out_dir :=
    joinpath (of_str out) (replace_char COLON UNDERSCORE (netloc (urlparse u))) in
  let rs := as_list (arun_deep u d p) in
  let page_file (ir : nat * CrawlResult) :=
    (mkPath (absolute out_dir)
            (parts out_dir
             ++ [lit "pages";
                 fmt_03d (fst ir) ++ lit "_"
                 ++ sanitize_filename (url (snd ir)) ++ lit ".md"]),
     lit "# " ++ title_of (snd ir) ++ [NEWLINE]
     ++ [NEWLINE]
     ++ lit "URL: " ++ url (snd ir) ++ [NEWLINE]
     ++ lit "Depth: " ++ str_of_Z (depth_of (snd ir)) ++ [NEWLINE]
     ++ [NEWLINE]
     ++ md_text (snd ir)) in
  exists (s : SiteSummary) (w' : World),
    crawl_site u d p out w = (Ok s, w')
    /\ files w'
       = files w ++ map page_file (kept_from 0 rs)
         ++ [(mkPath (absolute out_dir) (parts out_dir ++ [lit "index.md"]),
              index_text u d (site_pages s) (site_errors s))]
    /\ (forall i r, In (i, r) (kept_from 0 rs)
                    <-> nth_error rs i = Some r
                        /\ success r = true /\ blank r = false).
Proof.
  intros out_dir rs page_file. rewrite crawl_site_run.
  eexists _, _. split; [reflexivity |].
  cbn [files site_pages site_errors]. split.
  - f_equal. f_equal.
    unfold writes. apply map_ext. intros [i r]. unfold write_of, page_file.
    cbn [fst snd]. rewrite site_file_path.
    rewrite joinpath_component by (try reflexivity; simpl; lia).
    cbn [absolute parts]. unfold get_output_dir. fold out_dir.
    rewrite <- app_assoc. reflexivity.
  - intros i r. rewrite in_kept_from, Nat.sub_0_r. unfold kept.
    rewrite andb_true_iff, negb_true_iff. split.
    + intros (_ & Hn & Hs & Hb). auto.
    + intros (Hn & Hs & Hb). split; [lia | auto].
Qed.

(** C7, as stated, fails: the first page file of the sample crawl has a
    blank line between the header line and the URL line, so it is not the
    text the specification describes. *)
Lemma page_file_not_as_specified :
  let w' := snd (crawl_site (RT := Sample.runtime) (CR := Sample.crawler)
                            Sample.seed 3 50 Sample.out empty_world) in
  exists content : pystr,
    nth_error (files w') 0
    = Some (mkPath false [lit ".crawl"; lit "a.b_80"; lit "pages";
                          lit "000_index.md"], content)
    /\ content = lit "# T" ++ [NEWLINE; NEWLINE] ++ lit "URL: http://a.b/"
                 ++ [NEWLINE] ++ lit "Depth: 2" ++ [NEWLINE; NEWLINE]
                 ++ lit "fit"
    /\ content <> page_text_as_specified (lit "T") (lit "http://a.b/") 2 (lit "fit").
Proof.
  eexists. split; [vm_compute; reflexivity |].
  split; [reflexivity | vm_compute; discriminate].
Qed.

(* ================================================================= *)
(** ** Ordinals keep the page files apart *)

Lemma digits_value_zeros (k : nat) (s : pystr) :
  digits_value (repeat ZERO k ++ s) = digits_value s.
Proof.
  unfold digits_value. rewrite fold_left_app. f_equal.
  induction k as [| k IH]; simpl; auto.
Qed.

Lemma fmt_03d_inj (i j : nat) : fmt_03d i = fmt_03d j -> i = j.
Proof.
  intros H. apply (f_equal digits_value) in H. unfold fmt_03d in H.
  now rewrite !digits_value_zeros, !digits_value_str_of_nat in H.
Qed.

Lemma digit_prefix_eq (a : pystr) :
  forall (b x y : pystr),
    forallb is_ascii_digit a = true -> forallb is_ascii_digit b = true ->
    a ++ UNDERSCORE :: x = b ++ UNDERSCORE :: y -> a = b.
Proof.
  induction a as [| c a IH]; intros [| e b] x y Ha Hb H; simpl in *.
  - reflexivity.
  - injection H as <- _. discriminate.
  - injection H as -> _. discriminate.
  - apply andb_true_iff in Ha as [_ Ha]. apply andb_true_iff in Hb as [_ Hb].
    injection H as -> H. f_equal. eauto.
Qed.

Lemma NoDup_map_key {A B K} (key : A -> K) (g : A -> B) (l : list A) :
  (forall x y, g x = g y -> key x = key y) ->
  NoDup (map key l) -> NoDup (map g l).
Proof.
  intros Hg. induction l as [| a l IH]; simpl; intros H; constructor;
    inversion H as [| ? ? Hnot Hrest]; subst; auto.
  intros Hin. apply in_map_iff in Hin as (y & Hy & Hin).
  apply Hnot. rewrite <- (Hg _ _ Hy). now apply in_map.
Qed.

Section Distinct.

Context {RT : Runtime}.

Lemma site_filename_inj (i j : nat) (r r' : CrawlResult) :
  site_filename i r = site_filename j r' -> i = j.
Proof.
  unfold site_filename. simpl. intros H.
  apply fmt_03d_inj. eapply digit_prefix_eq; eauto using fmt_03d_digits.
Qed.

Lemma kept_from_positions (rs : list CrawlResult) :
  forall k, NoDup (map fst (kept_from k rs)).
Proof.
  induction rs as [| x rs IH]; intros k; simpl; [constructor |].
  destruct (kept x); simpl; auto.
  constructor; auto.
  intros Hin. apply in_map_iff in Hin as ([i r] & Hi & Hin).
  simpl in Hi. subst i. apply in_kept_from in Hin. lia.
Qed.

(** No two page files of one crawl have the same path. *)
Lemma page_paths_distinct (dir : Path) (k : nat) (rs : list CrawlResult) :
  NoDup (map (fun ir => joinpath dir (site_filename (fst ir) (snd ir)))
             (kept_from k rs)).
Proof.
  apply NoDup_map_key with (key := fst); [| apply kept_from_positions].
  intros [i r] [j r'] H. simpl in *. rewrite !site_file_path in H.
  injection H as H. apply app_inj_tail in H as [_ H].
  eapply site_filename_inj; eauto.
Qed.

End Distinct.

(* ================================================================= *)
(** ** Sizes in the index *)

(** C10. After a site crawl, the page files written are those of the
    successful results with some text, one file each, at pairwise distinct
    paths, each holding the header lines followed by the markdown body
    [get_markdown] resolved.  Every entry of the final page list belongs to
    one of these files (its [file] is the file's path) and records as size
    the length of that file's body, which is positive.  The index lists each
    entry with that size.  The total the crawl holds is the sum of the
    entries' sizes and equals the sum of the body lengths of the page files
    written, and it is the number in the last line printed,
    ["Total content: N chars"]. *)
Theorem site_sizes_consistent {RT : Runtime} {CR : Crawler}
    (u : pystr) (d p : Z) (out : pystr) (w : World) :
  let written := kept_from 0 (as_list (arun_deep u d p)) in
  let total := list_sum (map (fun ir => length (md_text (snd ir))) written) in
  exists (s : SiteSummary) (w' : World),
    crawl_site u d p out w = (Ok s, w')
    /\ let path_of (ir : nat * CrawlResult) :=
         joinpath (pages_dir s) (site_filename (fst ir) (snd ir)) in
       files w'
       = files w
         ++ map (fun ir =>
                   (path_of ir,
                    lit "# " ++ title_of (snd ir) ++ [NEWLINE; NEWLINE]
                    ++ lit "URL: " ++ url (snd ir) ++ [NEWLINE]
                    ++ lit "Depth: " ++ str_of_Z (depth_of (snd ir))
                    ++ [NEWLINE; NEWLINE]
                    ++ md_text (snd ir)))
                written
         ++ [(index_path s,
              join [NEWLINE]
                ([ lit "# Crawl Index: " ++ u ++ [NEWLINE];
                   lit "Pages: " ++ str_of_nat (length (site_pages s))
                   ++ lit " crawled, " ++ str_of_nat (site_errors s)
                   ++ lit " errors";
                   lit "Depth: " ++ str_of_Z d ++ [NEWLINE];
                   lit "## Pages" ++ [NEWLINE] ]
                 ++ flat_map
                      (fun e =>
                         [ lit "- [" ++ Page.title e ++ lit "](" ++ Page.file e
                           ++ lit ") " ++ [EM_DASH] ++ lit " depth "
                           ++ str_of_Z (Page.depth e) ++ lit ", "
                           ++ fmt_comma (Page.size e) ++ lit " chars";
                           lit "  " ++ Page.url e ])
                      (site_pages s))
              ++ [NEWLINE])]
       /\ NoDup (map path_of written)
       /\ (forall ir, In ir written ->
                      get_markdown (snd ir) = Some (md_text (snd ir)))
       /\ (forall e, In e (site_pages s) ->
             exists ir,
               In ir written
               /\ Page.file e = to_str (path_of ir)
               /\ Page.size e = length (md_text (snd ir))
               /\ 0 < Page.size e)
       /\ total_size s = list_sum (map Page.size (site_pages s))
       /\ total_size s = total
       /\ (exists earlier : list pystr,
              stdout w'
              = stdout w ++ earlier
                ++ [lit "Total content: " ++ fmt_comma total ++ lit " chars"])
       /\ (forall n, digits_value
                       (filter (fun c => negb (char_eqb c COMMA)) (fmt_comma n))
                     = n).
Proof.
  intros written total. rewrite crawl_site_run. eexists _, _.
  split; [reflexivity |].
  cbn [pages_dir index_path site_pages site_errors total_size files stdout].
  fold written.
  set (dir := joinpath (get_output_dir u out) (lit "pages")).
  assert (Hsum : list_sum (map Page.size (sort_pages (entries dir written)))
                 = total).
  { rewrite <- (Permutation_list_sum
                  (Permutation_map Page.size (sort_pages_perm (entries dir written)))).
    unfold entries. rewrite map_map. reflexivity. }
  split; [reflexivity |].
  split; [apply page_paths_distinct |].
  split; [intros ir _; apply get_markdown_md_text |].
  split; [| split; [reflexivity | split; [exact Hsum | split]]].
  - intros e He.
    apply (Permutation_in _ (Permutation_sym (sort_pages_perm _))) in He.
    unfold entries in He. apply in_map_iff in He as (ir & <- & Hin).
    exists ir. split; [exact Hin |]. split; [reflexivity |].
    split; [reflexivity |].
    destruct ir as [i r]. apply in_kept_from in Hin as (_ & _ & Hk).
    unfold kept, blank in Hk. apply andb_true_iff in Hk as [_ Hb].
    apply negb_true_iff in Hb. cbn [entry_of Page.size snd].
    destruct (md_text r); [discriminate | simpl; lia].
  - unfold site_stdout. cbn [total_size site_pages]. rewrite Hsum.
    eexists [_; _; _; _; _]. reflexivity.
  - exact fmt_comma_value.
Qed.

Lemma site_sizes_consistent_witness :
  exists (s : SiteSummary) (w' : World),
    crawl_site (RT := Sample.runtime) (CR := Sample.crawler)
               Sample.seed 3 50 Sample.out empty_world = (Ok s, w')
    /\ map Page.size (site_pages s) = [5; 3]
    /\ total_size s = 8
    /\ nth_error (files w') 1
       = Some (mkPath false [lit ".crawl"; lit "a.b_80"; lit "pages";
                             lit "003_x_y.md"],
               lit "# http://a.b/x/y" ++ [NEWLINE; NEWLINE]
               ++ lit "URL: http://a.b/x/y" ++ [NEWLINE] ++ lit "Depth: 0"
               ++ [NEWLINE; NEWLINE] ++ lit "hello")
    /\ last (stdout w') [] = lit "Total content: 8 chars".
Proof.
  destruct (site_sizes_consistent (RT := Sample.runtime) (CR := Sample.crawler)
              Sample.seed 3 50 Sample.out empty_world)
    as (s & w' & E & _).
  exists s, w'. split; [exact E |].
  vm_compute in E. injection E as <- <-. repeat split.
Defined.

(* ================================================================= *)
(** ** The single-page crawl *)

(** X1. A URL whose path is empty or made of slashes only is saved under the
    name [index]. *)
Theorem sanitize_filename_root {RT : Runtime} (u : pystr) :
  forallb (char_eqb SLASH) (path (urlparse u)) = true ->
  sanitize_filename u = lit "index".
Proof.
  intros H. unfold sanitize_filename.
  rewrite (proj2 (strip_nil_iff (char_eqb SLASH) (path (urlparse u))) H).
  reflexivity.
Qed.

Lemma sanitize_filename_root_witness :
  sanitize_filename (RT := Sample.runtime) (lit "https://a.b//?page=2") = lit "index".
Proof.
  apply (sanitize_filename_root (RT := Sample.runtime)). reflexivity.
Defined.

(** The run of a successful single-page crawl. *)
Lemma crawl_page_ok_run {RT : Runtime} {CR : Crawler}
    (u out : pystr) (w : World) :
  success (arun_page u) = true ->
  let r := arun_page u in
  let dir := get_output_dir u out in
  let file := mkPath (absolute dir)
                     (parts dir ++ [sanitize_filename u ++ lit ".md"]) in
  let shown := match title r with
               | Val (c :: t) => c :: t
               | _ => u
               end in
  crawl_page u out w
  = (Ok tt,
     mkWorld (files w
              ++ [(file,
                   lit "# " ++ shown ++ [NEWLINE; NEWLINE] ++ lit "URL: " ++ u
                   ++ [NEWLINE; NEWLINE] ++ md_text r)])
             (dirs w ++ [dir])
             (stdout w
              ++ [lit "Crawling " ++ u ++ lit " ...";
                  lit "Saved: " ++ to_str file;
                  lit "Size: " ++ fmt_comma (length (md_text r)) ++ lit " chars"])
             (stderr w)
             (requests w ++ [Fetch u])).
Proof.
  intros Hs r dir file shown. unfold crawl_page.
  destruct (page_filename_component u) as [Hslash Hlen].
  rewrite (joinpath_component (get_output_dir u out) _ Hslash Hlen).
  fold dir. fold file. run_py. rewrite Hs.
  cbn [negb]. rewrite get_markdown_md_text. run_py.
  assert (Ht : or_default (getattr (title (arun_page u)) []) u = shown).
  { unfold shown, r. destruct (title (arun_page u)) as [| | [| c t]]; reflexivity. }
  rewrite Ht. unfold page_text, fmt, print. run_py.
  repeat rewrite <- app_assoc. reflexivity.
Qed.

(** X2. A successful single-page crawl creates the host's directory, fetches
    the URL once, writes one file, named by the sanitized path with the
    extension [.md], directly in that directory, and reports the path and
    the length of the markdown.  The file holds the title (the URL given on
    the command line when the result has no title), the URL and the
    markdown.  Nothing goes to standard error. *)
Theorem crawl_page_success {RT : Runtime} {CR : Crawler}
    (u out : pystr) (w : World) :
  success (arun_page u) = true ->
  let r := arun_page u in
  let dir := get_output_dir u out in
  let file := mkPath (absolute dir)
                     (parts dir ++ [sanitize_filename u ++ lit ".md"]) in
  let shown := match title r with
               | Val (c :: t) => c :: t
               | _ => u
               end in
  crawl_page u out w
  = (Ok tt,
     mkWorld (files w
              ++ [(file,
                   lit "# " ++ shown ++ [NEWLINE; NEWLINE] ++ lit "URL: " ++ u
                   ++ [NEWLINE; NEWLINE] ++ md_text r)])
             (dirs w ++ [dir])
             (stdout w
              ++ [lit "Crawling " ++ u ++ lit " ...";
                  lit "Saved: " ++ to_str file;
                  lit "Size: " ++ fmt_comma (length (md_text r)) ++ lit " chars"])
             (stderr w)
             (requests w ++ [Fetch u])).
Proof.
  exact (crawl_page_ok_run u out w).
Qed.

Lemma crawl_page_success_witness :
  files (snd (crawl_page (RT := Sample.runtime) (CR := Cases.barren)
                         (lit "http://a.b/x/y") Sample.out empty_world))
  = [(mkPath false [lit ".crawl"; lit "a.b"; lit "x_y.md"],
      lit "# http://a.b/x/y" ++ [NEWLINE; NEWLINE] ++ lit "URL: http://a.b/x/y"
      ++ [NEWLINE; NEWLINE] ++ lit "hello")].
Proof.
  rewrite (crawl_page_success (RT := Sample.runtime) (CR := Cases.barren)
             (lit "http://a.b/x/y") Sample.out empty_world eq_refl).
  reflexivity.
Defined.

(** The run of a failed single-page crawl. *)
Lemma crawl_page_fail_run {RT : Runtime} {CR : Crawler}
    (u out : pystr) (w : World) :
  success (arun_page u) = false ->
  crawl_page u out w
  = (Raise (SystemExit 1),
     mkWorld (files w)
             (dirs w ++ [get_output_dir u out])
             (stdout w ++ [lit "Crawling " ++ u ++ lit " ..."])
             (stderr w ++ [lit "Error: " ++ fmt (error_message (arun_page u))])
             (requests w ++ [Fetch u])).
Proof.
  intros Hs. unfold crawl_page. run_py. rewrite Hs. reflexivity.
Qed.

(** X3. A failed single-page crawl has still created the host's directory,
    printed the progress line and fetched the URL once, before it reports
    the error and exits. *)
Theorem crawl_page_failure_effects {RT : Runtime} {CR : Crawler}
    (u out : pystr) (w : World) :
  success (arun_page u) = false ->
  crawl_page u out w
  = (Raise (SystemExit 1),
     mkWorld (files w)
             (dirs w ++ [get_output_dir u out])
             (stdout w ++ [lit "Crawling " ++ u ++ lit " ..."])
             (stderr w ++ [lit "Error: " ++ fmt (error_message (arun_page u))])
             (requests w ++ [Fetch u])).
Proof.
  exact (crawl_page_fail_run u out w).
Qed.

Lemma crawl_page_failure_effects_witness :
  dirs (snd (crawl_page (RT := Sample.runtime) (CR := Sample.crawler)
                        Sample.seed Sample.out empty_world))
  = [mkPath false [lit ".crawl"; lit "a.b_80"]].
Proof.
  rewrite (crawl_page_failure_effects (RT := Sample.runtime)
             (CR := Sample.crawler) Sample.seed Sample.out empty_world eq_refl).
  reflexivity.
Defined.

(* ================================================================= *)
(** ** The site crawl: accounting and effects *)

Lemma kept_from_filter (rs : list CrawlResult) :
  forall i, map snd (kept_from i rs) = filter kept rs.
Proof.
  induction rs as [| r rs IH]; intros i; simpl; auto.
  destruct (kept r); simpl; now rewrite IH.
Qed.

Lemma results_partition (rs : list CrawlResult) :
  length rs
  = length (filter failed rs) + length (filter kept rs)
    + length (filter skipped rs).
Proof.
  induction rs as [| r rs IH]; simpl; auto.
  change (failed r) with (negb (success r)).
  change (kept r) with (success r && negb (blank r))%bool.
  change (skipped r) with (success r && blank r)%bool.
  destruct (success r), (blank r); simpl; lia.
Qed.

(** X4. Every result of a site crawl is accounted for exactly once: it is
    counted as an error, or it has an entry in the final page list, or it is
    a successful page without text that was passed over. *)
Theorem site_results_accounted {RT : Runtime} {CR : Crawler}
    (u : pystr) (d p : Z) (out : pystr) (w : World) :
  exists (s : SiteSummary) (w' : World),
    crawl_site u d p out w = (Ok s, w')
    /\ length (as_list (arun_deep u d p))
       = site_errors s + length (site_pages s)
         + length (filter (fun r => (success r && blank r)%bool)
                          (as_list (arun_deep u d p))).
Proof.
  rewrite crawl_site_run. eexists _, _. split; [reflexivity |].
  cbn [site_errors site_pages].
  rewrite <- (Permutation_length (sort_pages_perm _)).
  unfold entries. rewrite length_map.
  rewrite <- (length_map snd), kept_from_filter.
  apply results_partition.
Qed.

(** X5. When no result can be saved, because each one failed or has no
    text, the site crawl still returns normally: it writes no page file, its
    page list is empty, the total size is zero, and the only file written is
    the index, which reports zero pages and the number of failures. *)
Theorem site_crawl_nothing_kept {RT : Runtime} {CR : Crawler}
    (u : pystr) (d p : Z) (out : pystr) (w : World) :
  (forall r, In r (as_list (arun_deep u d p)) ->
             success r = false \/ blank r = true) ->
  exists (s : SiteSummary) (w' : World),
    crawl_site u d p out w = (Ok s, w')
    /\ site_pages s = []
    /\ total_size s = 0
    /\ site_errors s
       = length (filter (fun r => negb (success r)) (as_list (arun_deep u d p)))
    /\ files w'
       = files w
         ++ [(index_path s,
              lit "# Crawl Index: " ++ u ++ [NEWLINE; NEWLINE]
              ++ lit "Pages: 0 crawled, " ++ str_of_nat (site_errors s)
              ++ lit " errors" ++ [NEWLINE]
              ++ lit "Depth: " ++ str_of_Z d ++ [NEWLINE; NEWLINE]
              ++ lit "## Pages" ++ [NEWLINE; NEWLINE])].
Proof.
  intros H. rewrite crawl_site_run. eexists _, _. split; [reflexivity |].
  assert (K : kept_from 0 (as_list (arun_deep u d p)) = []).
  { generalize 0. induction (as_list (arun_deep u d p)) as [| r rs IH];
      intros i; simpl; auto.
    assert (Hr : kept r = false).
    { unfold kept. destruct (H r (or_introl eq_refl)) as [E | E]; rewrite E;
        [reflexivity | apply andb_false_r]. }
    rewrite Hr. apply IH. intros x Hx. apply H. now right. }
  cbn [site_pages total_size site_errors files index_path]. rewrite K.
  cbn [entries writes map sort_pages fold_right list_sum app].
  repeat split.
  unfold index_text, summary_line.
  cbn [flat_map app join length]. change (str_of_nat 0) with (lit "0").
  change (lit "Pages: 0 crawled, ")
    with (lit "Pages: " ++ lit "0" ++ lit " crawled, ").
  repeat first [rewrite <- app_assoc | progress cbn [app]]. reflexivity.
Qed.

Lemma site_crawl_nothing_kept_witness :
  exists (s : SiteSummary) (w' : World),
    crawl_site (RT := Sample.runtime) (CR := Cases.barren)
               Sample.seed 2 10 Sample.out empty_world = (Ok s, w')
    /\ site_pages s = [] /\ site_errors s = 1 /\ length (files w') = 1.
Proof.
  destruct (site_crawl_nothing_kept (RT := Sample.runtime) (CR := Cases.barren)
              Sample.seed 2 10 Sample.out empty_world)
    as (s & w' & E & Hp & _ & He & Hf).
  - intros r [<- | [<- | []]]; [left | right]; reflexivity.
  - exists s, w'. split; [exact E |]. split; [exact Hp |].
    split; [rewrite He; reflexivity | rewrite Hf; reflexivity].
Defined.

(** X6. The calls and the console report of a site crawl, whatever the
    crawler returns: [write_text] is called once for each entry of the final
    page list and once for the index; [mkdir] is called once, on [pages] in
    the host's directory; the crawler is called once, with the depth and the
    page bound given; nothing is printed on standard error; and six lines
    are printed: the progress line with depth and page bound, the completion
    line, the summary with the number of pages and of errors, the path of
    the index, the path of the pages directory, and the total size. *)
Theorem site_crawl_effects {RT : Runtime} {CR : Crawler}
    (u : pystr) (d p : Z) (out : pystr) (w : World) :
  let host_dir := get_output_dir u out in
  exists (s : SiteSummary) (w' : World),
    crawl_site u d p out w = (Ok s, w')
    /\ length (files w') = length (files w) + length (site_pages s) + 1
    /\ dirs w'
       = dirs w ++ [mkPath (absolute host_dir) (parts host_dir ++ [lit "pages"])]
    /\ requests w' = requests w ++ [DeepCrawl u d p]
    /\ stderr w' = stderr w
    /\ site_errors s
       = length (filter (fun r => negb (success r)) (as_list (arun_deep u d p)))
    /\ total_size s = list_sum (map Page.size (site_pages s))
    /\ stdout w'
       = stdout w
         ++ [ lit "Deep crawling " ++ u ++ lit " (depth=" ++ str_of_Z d
              ++ lit ", max_pages=" ++ str_of_Z p ++ lit ") ...";
              [NEWLINE] ++ lit "Crawl complete!";
              lit "Pages: " ++ str_of_nat (length (site_pages s))
              ++ lit " crawled, " ++ str_of_nat (site_errors s) ++ lit " errors";
              lit "Index: "
              ++ to_str (mkPath (absolute host_dir)
                                (parts host_dir ++ [lit "index.md"]));
              lit "Pages dir: "
              ++ to_str (mkPath (absolute host_dir)
                                (parts host_dir ++ [lit "pages"]));
              lit "Total content: " ++ fmt_comma (total_size s) ++ lit " chars" ].
Proof.
  intros host_dir. rewrite crawl_site_run. eexists _, _.
  split; [reflexivity |].
  cbn [files dirs requests stderr stdout site_pages site_errors total_size].
  fold host_dir.
  split; [| repeat split].
  rewrite !length_app. simpl.
  rewrite <- (Permutation_length (sort_pages_perm _)).
  unfold entries, writes. rewrite !length_map. lia.
Qed.

(* ================================================================= *)
(** ** The output directory *)

(** X7. For a URL in which the parser finds no network location (a URL
    given without scheme and host), the output directory is the output
    root itself: no per-host directory separates the files. *)
Theorem get_output_dir_no_host {RT : Runtime} (u base : pystr) :
  netloc (urlparse u) = [] ->
  get_output_dir u base = of_str base.
Proof.
  intros H. unfold get_output_dir. rewrite H.
  unfold joinpath. cbn. rewrite app_nil_r. reflexivity.
Qed.

Lemma get_output_dir_no_host_witness :
  to_str (get_output_dir (RT := Sample.runtime) Cases.schemeless Sample.out)
  = lit ".crawl".
Proof.
  rewrite (get_output_dir_no_host (RT := Sample.runtime)
             Cases.schemeless Sample.out eq_refl).
  reflexivity.
Defined.

Lemma site_files_inside_root_witness :
  forallb (fun f => inside (of_str Sample.out) (fst f))
          (files (snd (crawl_site (RT := Sample.runtime) (CR := Sample.crawler)
                                  Sample.seed 3 50 Sample.out empty_world)))
  = true.
Proof.
  apply forallb_forall. intros f Hf.
  destruct (site_files_inside_root (RT := Sample.runtime) (CR := Sample.crawler)
              Sample.seed 3 50 Sample.out empty_world eq_refl f Hf)
    as [[] | H].
  exact H.
Defined.

(** X9. When the host of the URL is an ordinary directory name (not an
    absolute path, no [".."] component), the file a single-page crawl
    writes is inside the output root, whatever the path of the URL is. *)
Theorem page_file_inside_root {RT : Runtime} {CR : Crawler}
    (u out : pystr) (w : World) :
  ordinary_host (replace_char COLON UNDERSCORE (netloc (urlparse u))) = true ->
  forall f, In f (files (snd (crawl_page u out w))) ->
            In f (files w) \/ inside (of_str out) (fst f) = true.
Proof.
  intros Hhost f.
  destruct (success (arun_page u)) eqn:Hs.
  - rewrite (crawl_page_ok_run u out w Hs). cbn [snd files].
    intros Hin. apply in_app_or in Hin as [Hin | [<- | []]]; [now left | right].
    cbn [fst]. unfold get_output_dir.
    set (domain := replace_char COLON UNDERSCORE (netloc (urlparse u))) in *.
    unfold ordinary_host in Hhost. apply andb_true_iff in Hhost as [Habs Hparts].
    apply negb_true_iff in Habs.
    unfold joinpath. rewrite Habs. cbn [absolute parts].
    rewrite <- app_assoc. apply inside_extend.
    rewrite forallb_app, Hparts. cbn [forallb]. rewrite andb_true_r.
    unfold not_dotdot, str_eqb.
    destruct (list_eq_dec N.eq_dec (sanitize_filename u ++ lit ".md") (lit ".."))
      as [E | E]; auto.
    apply (f_equal (@length char)) in E. rewrite length_app in E.
    simpl in E. pose proof (sanitize_filename_length u). lia.
  - rewrite (crawl_page_fail_run u out w Hs). cbn [snd files]. auto.
Qed.

Lemma page_file_inside_root_witness :
  forallb (fun f => inside (of_str Sample.out) (fst f))
          (files (snd (crawl_page (RT := Sample.runtime) (CR := Cases.barren)
                                  (lit "http://a.b/../../etc/passwd")
                                  Sample.out empty_world)))
  = true.
Proof.
  apply forallb_forall. intros f Hf.
  destruct (page_file_inside_root (RT := Sample.runtime) (CR := Cases.barren)
              (lit "http://a.b/../../etc/passwd") Sample.out empty_world
              eq_refl f Hf) as [[] | H].
  exact H.
Defined.

(* ================================================================= *)
(** ** Page files list in crawl order *)

Lemma str_ltb_app (a : pystr) :
  forall (b x y : pystr),
    length a = length b -> str_ltb a b = true ->
    str_ltb (a ++ x) (b ++ y) = true.
Proof.
  induction a as [| c a IH]; intros [| e b] x y Hl H; simpl in *;
    try discriminate.
  destruct (N.ltb c e); auto.
  destruct (N.eqb c e); [| discriminate].
  apply IH; auto.
Qed.

Lemma fmt_03d_width_table :
  forallb (fun i => Nat.eqb (length (fmt_03d i)) 3) (seq 0 1000) = true.
Proof. vm_compute. reflexivity. Qed.

Lemma fmt_03d_next_table :
  forallb (fun i => str_ltb (fmt_03d i) (fmt_03d (S i))) (seq 0 999) = true.
Proof. vm_compute. reflexivity. Qed.

Lemma fmt_03d_width (i : nat) : i < 1000 -> length (fmt_03d i) = 3.
Proof.
  intros H. apply Nat.eqb_eq.
  apply (proj1 (forallb_forall _ _) fmt_03d_width_table).
  apply in_seq. lia.
Qed.

Lemma fmt_03d_increasing (i j : nat) :
  i < j -> j < 1000 -> str_ltb (fmt_03d i) (fmt_03d j) = true.
Proof.
  intros Hij. induction Hij as [| j Hij IH]; intros Hj.
  - apply (proj1 (forallb_forall _ _) fmt_03d_next_table).
    apply in_seq. lia.
  - eapply str_ltb_trans; [apply IH; lia |].
    apply (proj1 (forallb_forall _ _) fmt_03d_next_table).
    apply in_seq. lia.
Qed.

(** X10. Among the first thousand results, the page file of an earlier
    result has a name that comes first in lexicographic order, whatever the
    URLs are: a listing of [pages/] sorted by name is in crawl order. *)
Theorem site_filenames_in_crawl_order {RT : Runtime}
    (i j : nat) (r r' : CrawlResult) :
  i < j -> j < 1000 ->
  lex_lt (site_filename i r) (site_filename j r').
Proof.
  intros Hij Hj. apply str_ltb_lex_lt. unfold site_filename.
  apply str_ltb_app.
  - rewrite !fmt_03d_width by lia. reflexivity.
  - now apply fmt_03d_increasing.
Qed.

Lemma site_filenames_in_crawl_order_witness :
  lex_lt (site_filename (RT := Sample.runtime) 9 Sample.guide)
         (site_filename (RT := Sample.runtime) 10 Sample.home).
Proof.
  apply (site_filenames_in_crawl_order (RT := Sample.runtime)); lia.
Defined.

(* ================================================================= *)
(** ** The index does not depend on the order of arrival *)

Lemma lex_le_antisym (a b : pystr) : lex_le a b -> lex_le b a -> a = b.
Proof.
  intros Hab Hba. apply str_leb_lex_le in Hab, Hba.
  unfold str_leb in Hab, Hba. apply negb_true_iff in Hab, Hba.
  now apply str_ltb_total.
Qed.

Lemma key_le_antisym (a b : Z * pystr) : key_le a b -> key_le b a -> a = b.
Proof.
  destruct a as [da ua], b as [db ub]. unfold key_le. simpl.
  intros [H1 | [H1 U1]] [H2 | [H2 U2]]; try lia.
  f_equal; [exact H1 | now apply lex_le_antisym].
Qed.

(** Two sorted lists with the same elements are equal. *)
Lemma sorted_keys_unique (l : list (Z * pystr)) :
  forall l', StronglySorted key_le l -> StronglySorted key_le l' ->
             Permutation l l' -> l = l'.
Proof.
  induction l as [| a l IH]; intros l' Hl Hl' Hp.
  - apply Permutation_nil in Hp. now subst.
  - destruct l' as [| b l'].
    + apply Permutation_sym, Permutation_nil in Hp. discriminate.
    + apply StronglySorted_inv in Hl as [Hl Ha].
      apply StronglySorted_inv in Hl' as [Hl' Hb].
      assert (E : a = b).
      { assert (Hin : In a (b :: l')).
        { eapply Permutation_in; [exact Hp | now left]. }
        assert (Hin' : In b (a :: l)).
        { eapply Permutation_in; [apply Permutation_sym; exact Hp | now left]. }
        destruct Hin as [-> | Hin]; auto.
        destruct Hin' as [-> | Hin']; auto.
        rewrite Forall_forall in Ha, Hb.
        apply key_le_antisym; auto. }
      subst b. f_equal. apply IH; auto.
      eapply Permutation_cons_inv; eauto.
Qed.

Lemma sorted_page_keys (l : list Page.t) :
  StronglySorted page_le l -> StronglySorted key_le (map sort_key l).
Proof.
  induction 1 as [| a l Hs IH Ha]; simpl; constructor; auto.
  apply Forall_map. exact Ha.
Qed.

Lemma Permutation_filter_same {A} (f : A -> bool) (l l' : list A) :
  Permutation l l' -> Permutation (filter f l) (filter f l').
Proof.
  induction 1 as [| x l l' Hp IH | x y l | l l' l'' H1 IH1 H2 IH2]; simpl.
  - constructor.
  - destruct (f x); auto.
  - destruct (f x), (f y); auto. constructor.
  - etransitivity; eauto.
Qed.

Lemma entries_keys {RT : Runtime} (dir : Path) (rs : list CrawlResult) :
  forall i, map sort_key (entries dir (kept_from i rs))
            = map result_key (filter kept rs).
Proof.
  induction rs as [| r rs IH]; intros i; simpl; auto.
  destruct (kept r); simpl; now rewrite IH.
Qed.

Lemma entries_sizes {RT : Runtime} (dir : Path) (rs : list CrawlResult) :
  forall i, map Page.size (entries dir (kept_from i rs))
            = map (fun r => length (md_text r)) (filter kept rs).
Proof.
  induction rs as [| r rs IH]; intros i; simpl; auto.
  destruct (kept r); simpl; now rewrite IH.
Qed.

(** X11. Two site crawls whose result lists hold the same results in a
    different order end with the same sequence of (depth, URL) keys in their
    page lists, the same error count and the same total size. *)
Theorem site_order_independent {RT : Runtime} (CR1 CR2 : Crawler)
    (u : pystr) (d p : Z) (out : pystr) (w1 w2 : World) :
  Permutation (as_list (@arun_deep CR1 u d p)) (as_list (@arun_deep CR2 u d p)) ->
  exists s1 s2 : SiteSummary,
    summary_of (crawl_site (CR := CR1) u d p out w1) = Some s1
    /\ summary_of (crawl_site (CR := CR2) u d p out w2) = Some s2
    /\ map sort_key (site_pages s1) = map sort_key (site_pages s2)
    /\ site_errors s1 = site_errors s2
    /\ total_size s1 = total_size s2.
Proof.
  intros Hp. rewrite !crawl_site_run. unfold summary_of. cbn [fst].
  eexists _, _. split; [reflexivity |]. split; [reflexivity |].
  cbn [site_pages site_errors total_size].
  set (rs1 := as_list (@arun_deep CR1 u d p)) in *.
  set (rs2 := as_list (@arun_deep CR2 u d p)) in *.
  set (dir := joinpath (get_output_dir u out) (lit "pages")).
  pose proof (Permutation_filter_same kept Hp) as Hk.
  split; [| split].
  - apply sorted_keys_unique; try (apply sorted_page_keys, sort_pages_sorted).
    rewrite <- (Permutation_map sort_key (sort_pages_perm (entries dir (kept_from 0 rs1)))).
    rewrite <- (Permutation_map sort_key (sort_pages_perm (entries dir (kept_from 0 rs2)))).
    rewrite !entries_keys. now apply Permutation_map.
  - apply Permutation_length. now apply Permutation_filter_same.
  - rewrite <- (Permutation_list_sum
                  (Permutation_map Page.size (sort_pages_perm (entries dir (kept_from 0 rs1))))).
    rewrite <- (Permutation_list_sum
                  (Permutation_map Page.size (sort_pages_perm (entries dir (kept_from 0 rs2))))).
    rewrite !entries_sizes. apply Permutation_list_sum. now apply Permutation_map.
Qed.

Lemma site_order_independent_witness :
  exists s1 s2 : SiteSummary,
    summary_of (crawl_site (RT := Sample.runtime) (CR := Sample.crawler)
                           Sample.seed 3 50 Sample.out empty_world) = Some s1
    /\ summary_of (crawl_site (RT := Sample.runtime) (CR := Cases.shuffled)
                              Sample.seed 3 50 Sample.out empty_world) = Some s2
    /\ map sort_key (site_pages s1) = map sort_key (site_pages s2).
Proof.
  destruct (site_order_independent (RT := Sample.runtime)
              Sample.crawler Cases.shuffled
              Sample.seed 3 50 Sample.out empty_world empty_world)
    as (s1 & s2 & E1 & E2 & Hk & _).
  - apply Permutation_sym.
    change (Permutation (Sample.guide :: [Sample.spaces; Sample.home; Sample.broken])
                        ([Sample.home; Sample.broken; Sample.spaces]
                         ++ Sample.guide :: [])).
    apply Permutation_cons_app. rewrite app_nil_r.
    change (Permutation (Sample.spaces :: [Sample.home; Sample.broken])
                        ([Sample.home; Sample.broken] ++ Sample.spaces :: [])).
    apply Permutation_cons_app. rewrite app_nil_r. apply Permutation_refl.
  - exists s1, s2. auto.
Defined.

(* ================================================================= *)
(** ** Entries with the same key *)

Lemma has_key_not_less (k : Z * pystr) (p q : Page.t) :
  has_key k p = true -> has_key k q = true ->
  key_ltb (sort_key q) (sort_key p) = false.
Proof.
  unfold has_key, key_ltb, sort_key, str_eqb. simpl. intros Hp Hq.
  apply andb_true_iff in Hp as [Dp Up]. apply andb_true_iff in Hq as [Dq Uq].
  apply Z.eqb_eq in Dp, Dq.
  destruct (list_eq_dec N.eq_dec (Page.url p) (snd k)) as [Ep |]; [| discriminate].
  destruct (list_eq_dec N.eq_dec (Page.url q) (snd k)) as [Eq |]; [| discriminate].
  rewrite Dp, Dq, Ep, Eq, Z.ltb_irrefl, Z.eqb_refl. simpl.
  destruct (str_ltb (snd k) (snd k)) eqn:E; auto.
  pose proof (str_ltb_asym _ _ E). congruence.
Qed.

Lemma insert_page_has_key (k : Z * pystr) (p : Page.t) (l : list Page.t) :
  filter (has_key k) (insert_page p l) = filter (has_key k) (p :: l).
Proof.
  induction l as [| q l IH]; [reflexivity |].
  cbn [insert_page].
  destruct (key_ltb (sort_key q) (sort_key p)) eqn:E; [| reflexivity].
  cbn [filter] in *. rewrite IH.
  destruct (has_key k p) eqn:Hp, (has_key k q) eqn:Hq; try reflexivity.
  rewrite (has_key_not_less k p q Hp Hq) in E. discriminate.
Qed.

Lemma sort_pages_has_key (k : Z * pystr) (l : list Page.t) :
  filter (has_key k) (sort_pages l) = filter (has_key k) l.
Proof.
  induction l as [| p l IH]; [reflexivity |].
  cbn [sort_pages fold_right]. fold (sort_pages l).
  rewrite insert_page_has_key. cbn [filter]. now rewrite IH.
Qed.

(** X12. Sorting the pages keeps the entries that have the same depth and
    URL in the order in which the loop collected them. *)
Theorem site_sort_stable {RT : Runtime} {CR : Crawler}
    (u : pystr) (d p : Z) (out : pystr) (w : World) :
  exists (s : SiteSummary) (w' : World) (st : LoopState),
    crawl_site u d p out w = (Ok s, w')
    /\ (forall w0, fst (site_loop (pages_dir s) 0 (as_list (arun_deep u d p))
                                  (mkLoop [] 0) w0) = Ok st)
    /\ forall k, filter (has_key k) (site_pages s) = filter (has_key k) (pages st).
Proof.
  eexists _, _, _. rewrite crawl_site_run. split; [reflexivity |].
  cbn [pages_dir site_pages]. split.
  - intros w0. rewrite site_loop_run. reflexivity.
  - intros k. cbn [pages app]. apply sort_pages_has_key.
Qed.

(* ================================================================= *)
(** ** The filename in closed form *)

Lemma re_sub_after_replace {RT : Runtime} (s : pystr) :
  re_sub_unsafe (replace_char SLASH UNDERSCORE s) = re_sub_unsafe s.
Proof.
  unfold re_sub_unsafe, replace_char. rewrite map_map. apply map_ext.
  intros c. destruct (char_eqb c SLASH) eqn:E.
  - apply N.eqb_eq in E. subst c. reflexivity.
  - reflexivity.
Qed.

Lemma nth_error_firstn_some {A} (n : nat) :
  forall (i : nat) (l : list A) (c : A),
    nth_error (firstn n l) i = Some c -> nth_error l i = Some c.
Proof.
  induction n as [| n IH]; intros i l c H; simpl in H.
  - destruct i; discriminate.
  - destruct l as [| x l]; [destruct i; discriminate |].
    destruct i; simpl in *; auto.
Qed.

(** X13. When the path of the URL has a character other than a slash, the
    filename is the path without its leading and trailing slashes, with
    every character outside word characters, hyphen and dot (so every inner
    slash too) turned into an underscore, cut to its first 100 characters:
    it has as many characters as that stripped path, up to 100. *)
Theorem sanitize_filename_closed_form {RT : Runtime} (u : pystr) :
  forallb (char_eqb SLASH) (path (urlparse u)) = false ->
  let p := strip (char_eqb SLASH) (path (urlparse u)) in
  sanitize_filename u
  = firstn 100 (map (fun c => if is_safe c then c else UNDERSCORE) p)
  /\ length (sanitize_filename u) = Nat.min 100 (length p)
  /\ forall i c, nth_error (sanitize_filename u) i = Some c ->
                 exists c0, nth_error p i = Some c0
                            /\ (c = c0 \/ (c = UNDERSCORE /\ is_safe c0 = false)).
Proof.
  intros H p.
  assert (Hp : p <> []).
  { intros E. apply strip_nil_iff in E. congruence. }
  assert (E : sanitize_filename u
              = firstn 100 (map (fun c => if is_safe c then c else UNDERSCORE) p)).
  { unfold sanitize_filename. fold p.
    assert (Hor : or_default (Some (replace_char SLASH UNDERSCORE p)) (lit "index")
                  = replace_char SLASH UNDERSCORE p).
    { unfold or_default, truth, Truthy_str, replace_char.
      destruct p; [congruence | reflexivity]. }
    rewrite Hor, re_sub_after_replace. reflexivity. }
  split; [exact E |]. split.
  - rewrite E, length_firstn, length_map. reflexivity.
  - intros i c Hi. rewrite E in Hi.
    apply nth_error_firstn_some in Hi. rename Hi into Hi'.
    rewrite nth_error_map in Hi'.
    destruct (nth_error p i) as [c0 |]; [| discriminate].
    exists c0. split; [reflexivity |].
    simpl in Hi'. injection Hi' as <-.
    destruct (is_safe c0); auto.
Qed.

Lemma sanitize_filename_closed_form_witness :
  sanitize_filename (RT := Sample.runtime) (lit "http://a.b//docs/get started/")
  = lit "docs_get_started"
  /\ length (sanitize_filename (RT := Sample.runtime)
                               (lit "http://a.b//docs/get started/")) = 16.
Proof.
  destruct (sanitize_filename_closed_form (RT := Sample.runtime)
              (lit "http://a.b//docs/get started/") eq_refl) as (E & L & _).
  split; [rewrite E | rewrite L]; reflexivity.
Defined.
